(** * Geolocation service of the management server

    A shallow embedding of [management/server/geolocation/geolocation.go]:
    the selection and cleanup of the versioned database files, the query
    facade over the geonames store, and the handle life cycle of the MaxMind
    reader ([Lookup], [Stop], [reloader], [reload]); then the startup of the
    package ([GetMaxMindFilenames], [cleanupMaxMindDatabases],
    [NewGeolocation], [fileExists]) and the request test of [grpcHandlerFunc]
    in [signal/cmd/run.go].

    Go values are modelled as follows.  An [error] is its message; a
    possibly-nil error is an [option error].  A function returning
    [(T, error)] returns a pair.  A run-time panic is the [Panics] outcome.
    Logging is left out: it touches neither the state nor the results. *)

From Stdlib Require Import Ascii String.
From stdpp Require Import base list strings sorting.


Definition error := string.

Inductive outcome (A : Type) : Type :=
  | Returns (a : A)
  | Panics (msg : string).
Arguments Returns {A} a.
Arguments Panics {A} msg.

Definition index_out_of_range : string := "index out of range".
Definition nil_dereference : string := "invalid memory address or nil pointer dereference".
Definition close_of_closed_channel : string := "close of closed channel".
Definition close_of_nil_channel : string := "close of nil channel".

(** ** Strings and paths of the Go standard library *)

Module GoStrings.

(** [s[n:]] for [n] within the string. *)
Fixpoint skip (n : nat) (s : string) : string :=
  match n, s with
  | S n', String _ s' => skip n' s'
  | _, _ => s
  end.

(** [strings.Cut]: the text before and after the first occurrence of
    [sep], if there is one. *)
Fixpoint Cut (sep s : string) : option (string * string) :=
  if String.prefix sep s then Some ("", skip (String.length sep) s)
  else match s with
       | EmptyString => None
       | String c s' =>
           match Cut sep s' with
           | Some (before, after) => Some (String c before, after)
           | None => None
           end
       end.

(** [strings.SplitN s sep n] for a non-empty separator: at most [n]
    pieces, the last one being the unsplit remainder; no piece for
    [n = 0].  (Both call sites pass a one-character separator and 2.) *)
Fixpoint SplitN (s sep : string) (n : nat) : list string :=
  match n with
  | 0 => []
  | 1 => [s]
  | S n' =>
      match Cut sep s with
      | Some (before, after) => before :: SplitN after sep n'
      | None => [s]
      end
  end.

(** [strings.Replace s old new n] for a non-empty [old]: the first [n]
    occurrences are replaced, from left to right. *)
Fixpoint Replace (s old new : string) (n : nat) : string :=
  match n with
  | 0 => s
  | S n' =>
      match Cut old s with
      | Some (before, after) => before +:+ new +:+ Replace after old new n'
      | None => s
      end
  end.

Definition is_slash (c : ascii) : bool := Ascii.eqb c "/".

Fixpoint drop_slashes (cs : list ascii) : list ascii :=
  match cs with
  | c :: cs' => if is_slash c then drop_slashes cs' else cs
  | [] => []
  end.

Fixpoint until_slash (cs : list ascii) : list ascii :=
  match cs with
  | c :: cs' => if is_slash c then [] else c :: until_slash cs'
  | [] => []
  end.

(** [path.Base]: the last element of the path; trailing slashes are
    removed first; "." for the empty path, "/" for a path of slashes.
    The path is scanned from its end, hence the reversals. *)
Definition Base (p : string) : string :=
  if String.eqb p "" then "."
  else
    let stripped := drop_slashes (rev (list_ascii_of_string p)) in
    match stripped with
    | [] => "/"
    | _ => string_of_list_ascii (rev (until_slash stripped))
    end.

(** Go's [a[i]] on a slice: a panic when [i] is out of range. *)
Definition at_index {A} (a : list A) (i : nat) : outcome A :=
  match a !! i with
  | Some x => Returns x
  | None => Panics index_out_of_range
  end.

End GoStrings.

(** ** Versioned database files

    The data directory is a list of the paths of its files; [fs_denied]
    lists the paths the operating system refuses to remove. *)

Record FS : Type := {
  fs_files : list string;
  fs_denied : list string
}.

(** The directory once the paths of [gone] are removed. *)
Definition without (gone : list string) (fs : FS) : FS :=
  {| fs_files := filter (fun q => q ∉ gone) (fs_files fs);
     fs_denied := fs_denied fs |}.

(** What the file functions take from outside this file: the matcher behind
    [filepath.Glob], and [getFilenameFromURL], which asks the download
    server for the name of the published archive. *)
Class External : Type := {
  Match : string -> string -> bool;
  getFilenameFromURL : string -> string * option error
}.

Section Files.
Context `{External}.

(** [filepath.Glob] for a pattern whose directory part has no wildcard:
    the names of the directory are sorted ([sort.Strings]) and the
    matching ones are kept, so the paths come out in byte-wise
    lexicographic order. *)
Definition Glob (pattern : string) (fs : FS) : list string :=
  merge_sort String.le (filter (fun p => Match pattern p) (fs_files fs)).

(** [os.Remove] *)
Definition os_Remove (name : string) (fs : FS) : option error * FS :=
  if bool_decide (name ∈ fs_denied fs) then
    (Some ("remove " +:+ name +:+ ": operation not permitted"), fs)
  else if bool_decide (name ∈ fs_files fs) then
    (None, {| fs_files := filter (fun p => p ≠ name) (fs_files fs);
              fs_denied := fs_denied fs |})
  else (Some ("remove " +:+ name +:+ ": no such file or directory"), fs).

Definition getExistingDatabases (pattern : string) (fs : FS) : list string :=
  Glob pattern fs.

Definition getDatabaseFilename (databaseURL filenamePattern : string)
    (autoUpdate : bool) (fs : FS) : outcome (string * option error) :=
  let '(filename, err) :=
    if autoUpdate then getFilenameFromURL databaseURL else ("", None) in
  if bool_decide (err ≠ None) || negb autoUpdate then
    let files := getExistingDatabases filenamePattern fs in
    if bool_decide (length files < 1) then
      Returns ("", Some "database does not exist")
    else
      match GoStrings.at_index files (length files - 1) with
      | Panics msg => Panics msg
      | Returns last => Returns (GoStrings.Base last, None)
      end
  else
    match GoStrings.at_index (GoStrings.SplitN filename "." 2) 0 with
    | Panics msg => Panics msg
    | Returns basename =>
        match GoStrings.at_index (GoStrings.SplitN basename "_" 2) 1 with
        | Panics msg => Panics msg
        | Returns date =>
            Returns (GoStrings.Base (GoStrings.Replace filenamePattern "*" date 1), None)
        end
    end.

(** The loop of [cleanupOldDatabases] over the globbed paths. *)
Fixpoint cleanup_loop (files : list string) (currentFile : string) (fs : FS)
    : option error * FS :=
  match files with
  | [] => (None, fs)
  | db :: rest =>
      if String.eqb (GoStrings.Base db) currentFile then
        cleanup_loop rest currentFile fs
      else
        match os_Remove db fs with
        | (Some err, fs') => (Some err, fs')
        | (None, fs') => cleanup_loop rest currentFile fs'
        end
  end.

Definition cleanupOldDatabases (pattern currentFile : string) (fs : FS)
    : option error * FS :=
  cleanup_loop (getExistingDatabases pattern fs) currentFile fs.

End Files.

(** A matcher for patterns made of literal characters and [*], which
    stands for any run of characters other than the separator. *)
Fixpoint star_match (p s : list ascii) : bool :=
  match p with
  | [] => match s with [] => true | _ => false end
  | c :: p' =>
      if Ascii.eqb c "*" then
        (fix star (s : list ascii) : bool :=
           star_match p' s ||
           match s with
           | [] => false
           | d :: s' => negb (GoStrings.is_slash d) && star s'
           end) s
      else
        match s with
        | d :: s' => Ascii.eqb c d && star_match p' s'
        | [] => false
        end
  end.

Definition simple_Match (pattern name : string) : bool :=
  star_match (list_ascii_of_string pattern) (list_ascii_of_string name).

(** ** The service *)

#[global] Instance byte_eq_dec : EqDecision Byte.byte := Byte.byte_eq_dec.

Definition bytes := list Byte.byte.

(** [bytes.Equal] *)
Definition bytes_Equal (a b : bytes) : bool := bool_decide (a = b).

Definition IP := bytes.

Record RecordCity : Type := { city_GeonameID : N; city_Names_En : string }.
Record RecordContinent : Type := { continent_GeonameID : N; continent_Code : string }.
Record RecordCountry : Type := { country_GeonameID : N; country_ISOCode : string }.
Record Record_ : Type := {
  City_ : RecordCity;
  Continent_ : RecordContinent;
  Country_ : RecordCountry
}.

Record City : Type := { GeoNameID : Z; CityName : string }.
Record Country : Type := { CountryISOCode : string; CountryName : string }.

(** A [maxminddb.Reader] object.  [rd_closed] records that [Close] has been
    called on it: the handle is released. *)
Record Reader : Type := { rd_path : string; rd_closed : bool }.

(** Pointers to readers are positions in the heap of reader objects. *)
Definition ptr := nat.

Inductive chan : Type := ChanNil | ChanOpen | ChanClosed.

Record Geolocation : Type := {
  mmdbPath : string;
  sha256sum : bytes;
  db : option ptr;
  locationDB : option ptr;
  stopCh : chan;
  reloadCheckInterval : nat
}.

(** What a run does, in order: the lock operations of [mux], every call
    that leaves this file, and the replacement of the reference and of the
    fingerprint in [reload] ([EvSwap]). *)
Inductive Event : Type :=
  | EvLock | EvUnlock | EvRLock | EvRUnlock
  | EvSwap
  | EvSHA256 (path : string)
  | EvSleep (ms : nat)
  | EvStat (path : string)
  | EvOpen (path : string)
  | EvClose (p : ptr)
  | EvReaderLookup (p : ptr)
  | EvStoreReload
  | EvStoreClose
  | EvCloseChan.

#[global] Instance Event_eq_dec : EqDecision Event.
Proof. solve_decision. Defined.

(** The world outside this file, of some type [W] of states: the file
    hashing of the package, the operating system, the MaxMind reader
    library and the geonames store.  The reader operations are given the
    reader object, so their answer may depend on its being released. *)
Class Environment (W : Type) : Type := {
  calculateFileSHA256 : string -> W -> (bytes * option error) * W;
  os_Stat : string -> W -> option error * W;
  os_IsNotExist : error -> bool;
  maxminddb_Open : string -> W -> option error * W;
  Reader_Close : Reader -> W -> option error * W;
  Reader_Lookup : Reader -> IP -> W -> Record_ * option error;
  SqliteStore_reload : W -> option error * W;
  SqliteStore_close : W -> option error * W;
  SqliteStore_GetAllCountries : W -> list Country * option error;
  SqliteStore_GetCitiesByCountry : string -> W -> list City * option error;
  time_Sleep : nat -> W -> W
}.

Record State (W : Type) : Type := {
  gl : Geolocation;
  heap : list Reader;
  world : W;
  trace : list Event
}.
Arguments gl {W} _.
Arguments heap {W} _.
Arguments world {W} _.
Arguments trace {W} _.

(** Computations over the state that may panic. *)
Definition M (W A : Type) : Type := State W -> outcome A * State W.

Definition ret {W A} (a : A) : M W A := fun st => (Returns a, st).

Definition bind {W A B} (m : M W A) (k : A -> M W B) : M W B :=
  fun st =>
    match m st with
    | (Returns a, st') => k a st'
    | (Panics msg, st') => (Panics msg, st')
    end.

Definition panic {W A} (msg : string) : M W A := fun st => (Panics msg, st).

(** [defer d] ahead of [body]: [d] runs when [body] returns or panics. *)
Definition defer {W A} (d : State W -> State W) (body : M W A) : M W A :=
  fun st => let '(r, st') := body st in (r, d st').

Declare Scope go_scope.
Delimit Scope go_scope with go.
Notation "x <- m ;; k" := (bind m (fun x => k))
  (at level 100, m at next level, right associativity) : go_scope.
Notation "m ;; k" := (bind m (fun _ => k))
  (at level 100, right associativity) : go_scope.

Section Service.
Context {W : Type} `{Environment W}.
Local Open Scope go_scope.

Definition emit (e : Event) : M W unit :=
  fun st => (Returns tt,
             {| gl := gl st; heap := heap st; world := world st;
                trace := trace st ++ [e] |}).

Definition emitted (e : Event) (st : State W) : State W :=
  {| gl := gl st; heap := heap st; world := world st; trace := trace st ++ [e] |}.

Definition get_gl : M W Geolocation := fun st => (Returns (gl st), st).

Definition set_gl (g : Geolocation) : M W unit :=
  fun st => (Returns tt,
             {| gl := g; heap := heap st; world := world st; trace := trace st |}).

(** A call into the world outside. *)
Definition call {A} (e : Event) (f : W -> A * W) : M W A :=
  fun st =>
    let '(a, w) := f (world st) in
    (Returns a,
     {| gl := gl st; heap := heap st; world := w; trace := trace st ++ [e] |}).

(** [*p] for a reader pointer; Go panics on nil. *)
Definition deref (p : option ptr) : M W (ptr * Reader) :=
  fun st =>
    match p with
    | None => (Panics nil_dereference, st)
    | Some a =>
        match heap st !! a with
        | Some r => (Returns (a, r), st)
        | None => (Panics nil_dereference, st)
        end
    end.

(** [r.Close()] on the reader behind [p]: the library call, after which
    the object is released. *)
Definition Close_reader (p : option ptr) : M W (option error) :=
  ar <- deref p ;;
  err <- call (EvClose ar.1) (Reader_Close ar.2) ;;
  fun st =>
    (Returns err,
     {| gl := gl st;
        heap := <[ar.1 := {| rd_path := rd_path ar.2; rd_closed := true |}]> (heap st);
        world := world st; trace := trace st |}).

(** [&Reader{...}]: a new object at a new address. *)
Definition alloc (r : Reader) : M W ptr :=
  fun st =>
    (Returns (length (heap st)),
     {| gl := gl st; heap := heap st ++ [r]; world := world st; trace := trace st |}).

Definition openDB (path : string) : M W (option ptr * option error) :=
  err <- call (EvStat path) (os_Stat path) ;;
  match err with
  | Some e =>
      if os_IsNotExist e then ret (None, Some (path +:+ " does not exist"))
      else ret (None, Some e)
  | None =>
      err <- call (EvOpen path) (maxminddb_Open path) ;;
      match err with
      | Some e => ret (None, Some (path +:+ " could not be opened: " +:+ e))
      | None =>
          p <- alloc {| rd_path := path; rd_closed := false |} ;;
          ret (Some p, None)
      end
  end.

Definition Lookup (ip : IP) : M W (option Record_ * option error) :=
  emit EvRLock ;;
  defer (emitted EvRUnlock)
    (g <- get_gl ;;
     ar <- deref (db g) ;;
     res <- call (EvReaderLookup ar.1) (fun w => (Reader_Lookup ar.2 ip w, w)) ;;
     match res.2 with
     | Some e => ret (None, Some e)
     | None => ret (Some res.1, None)
     end).

(** The loops of [GetAllCountries] and [GetCitiesByCountry]. *)
Definition keep_named {A} (name : A -> string) (rows : list A) : list A :=
  fold_left (fun kept row => if bool_decide (name row ≠ "") then kept ++ [row] else kept)
            rows [].

Definition GetAllCountries (w : W) : list Country * option error :=
  let '(allCountries, err) := SqliteStore_GetAllCountries w in
  match err with
  | Some e => ([], Some e)
  | None => (keep_named CountryName allCountries, None)
  end.

Definition GetCitiesByCountry (countryISOCode : string) (w : W)
    : list City * option error :=
  let '(allCities, err) := SqliteStore_GetCitiesByCountry countryISOCode w in
  match err with
  | Some e => ([], Some e)
  | None => (keep_named CityName allCities, None)
  end.

(** [close(gl.stopCh)] *)
Definition close_stopCh : M W unit :=
  g <- get_gl ;;
  match stopCh g with
  | ChanNil => panic close_of_nil_channel
  | ChanClosed => panic close_of_closed_channel
  | ChanOpen =>
      emit EvCloseChan ;;
      set_gl {| mmdbPath := mmdbPath g; sha256sum := sha256sum g; db := db g;
                locationDB := locationDB g; stopCh := ChanClosed;
                reloadCheckInterval := reloadCheckInterval g |}
  end.

Definition Stop : M W (option error) :=
  close_stopCh ;;
  g <- get_gl ;;
  err <- match db g with
         | Some _ => Close_reader (db g)
         | None => ret None
         end ;;
  match err with
  | Some e => ret (Some e)
  | None =>
      err <- match locationDB g with
             | Some _ => call EvStoreClose SqliteStore_close
             | None => ret None
             end ;;
      match err with
      | Some e => ret (Some e)
      | None => ret None
      end
  end.

Definition reload (newSha256sum : bytes) : M W (option error) :=
  emit EvLock ;;
  defer (emitted EvUnlock)
    (g <- get_gl ;;
     err <- Close_reader (db g) ;;
     match err with
     | Some e => ret (Some e)
     | None =>
         res <- openDB (mmdbPath g) ;;
         match res.2 with
         | Some e => ret (Some e)
         | None =>
             emit EvSwap ;;
             set_gl {| mmdbPath := mmdbPath g; sha256sum := newSha256sum;
                       db := res.1; locationDB := locationDB g;
                       stopCh := stopCh g;
                       reloadCheckInterval := reloadCheckInterval g |} ;;
             ret None
         end
     end).

(** The body of the [time.After] case of [reloader]: one tick. *)
Definition reloader_tick : M W unit :=
  g <- get_gl ;;
  call EvStoreReload SqliteStore_reload ;;
  r1 <- call (EvSHA256 (mmdbPath g)) (calculateFileSHA256 (mmdbPath g)) ;;
  match r1.2 with
  | Some _ => ret tt
  | None =>
      if negb (bytes_Equal (sha256sum g) r1.1) then
        call (EvSleep 50) (fun w => (tt, time_Sleep 50 w)) ;;
        r2 <- call (EvSHA256 (mmdbPath g)) (calculateFileSHA256 (mmdbPath g)) ;;
        match r2.2 with
        | Some _ => ret tt
        | None =>
            if negb (bytes_Equal r1.1 r2.1) then ret tt
            else reload r2.1 ;; ret tt
        end
      else ret tt
  end.

(** [reloader], observed for [ticks] firings of the timer: the loop
    leaves when the stop channel is closed and runs a tick otherwise. *)
Fixpoint reloader (ticks : nat) : M W unit :=
  match ticks with
  | 0 => ret tt
  | S n =>
      g <- get_gl ;;
      match stopCh g with
      | ChanClosed => ret tt
      | _ => reloader_tick ;; reloader n
      end
  end.

End Service.

(** What one tick of the reloader observes, in the words of the
    specification: the two fingerprints and the outcome of closing the
    superseded handle and of opening the new one. *)
Section Observations.
Context {W : Type} `{Environment W}.

Definition sample1 (st : State W) : (bytes * option error) * W :=
  calculateFileSHA256 (mmdbPath (gl st)) (SqliteStore_reload (world st)).2.

Definition sample2 (st : State W) : (bytes * option error) * W :=
  calculateFileSHA256 (mmdbPath (gl st)) (time_Sleep 50 (sample1 st).2).

(** The first fingerprint was computed and differs from the baseline. *)
Definition changed (st : State W) : bool :=
  bool_decide ((sample1 st).1.2 = None) &&
  negb (bytes_Equal (sha256sum (gl st)) (sample1 st).1.1).

(** The second fingerprint was computed and equals the first. *)
Definition stable (st : State W) : bool :=
  bool_decide ((sample2 st).1.2 = None) &&
  bytes_Equal (sample1 st).1.1 (sample2 st).1.1.

(** Closing the reader [r] and then opening the path both succeed, from
    the world [w] on. *)
Definition reopens (path : string) (r : Reader) (w : W) : bool :=
  let c := Reader_Close r w in
  let s := os_Stat path c.2 in
  let o := maxminddb_Open path s.2 in
  bool_decide (c.1 = None) && bool_decide (s.1 = None) && bool_decide (o.1 = None).

Definition reopened (st : State W) : bool :=
  match db (gl st) with
  | Some p =>
      match heap st !! p with
      | Some r => reopens (mmdbPath (gl st)) r (sample2 st).2
      | None => false
      end
  | None => false
  end.

(** The handle the service reads through has been replaced. *)
Definition replaced (st st' : State W) : Prop := db (gl st') ≠ db (gl st).

End Observations.

Section Stopping.
Context {W : Type} `{Environment W}.

(** What a [Stop] that gets past the stop channel receives from
    [gl.db.Close()]: the error and the world after the call; a nil reference
    is not closed. *)
Definition Stop_reader (st : State W) : option error * W :=
  match db (gl st) with
  | Some p =>
      match heap st !! p with
      | Some r => Reader_Close r (world st)
      | None => (None, world st)
      end
  | None => (None, world st)
  end.

(** What it receives from [gl.locationDB.close()], which is called only
    when closing the reader gave no error and the store is not nil. *)
Definition Stop_store (st : State W) : option error * W :=
  match (Stop_reader st).1, locationDB (gl st) with
  | None, Some _ => SqliteStore_close (Stop_reader st).2
  | _, _ => (None, (Stop_reader st).2)
  end.

(** The error it returns: the one of closing the reader, else the one of
    closing the store, else nil. *)
Definition Stop_error (st : State W) : option error :=
  match (Stop_reader st).1 with
  | Some e => Some e
  | None => (Stop_store st).1
  end.

(** Its events: the stop channel is closed, then the reader, then, if
    that gave no error, the store. *)
Definition Stop_events (st : State W) : list Event :=
  EvCloseChan ::
  match db (gl st) with Some p => [EvClose p] | None => [] end ++
  match (Stop_reader st).1, locationDB (gl st) with
  | None, Some _ => [EvStoreClose]
  | _, _ => []
  end.


End Stopping.

Section LockedRegion.
Context {W : Type} `{Environment W}.

(** What [reload] does while it holds the writer lock, for the reader [r]
    behind the reference [p], from the world [w] on: it closes [r]; if that
    succeeds it examines the file; if the file is there it opens it; and if
    that succeeds it replaces the reference and the fingerprint. *)
Definition locked_steps (path : string) (p : ptr) (r : Reader) (w : W) : list Event :=
  let c := Reader_Close r w in
  EvClose p ::
  match c.1 with
  | Some _ => []
  | None =>
      let s := os_Stat path c.2 in
      EvStat path ::
      match s.1 with
      | Some _ => []
      | None =>
          EvOpen path ::
          match (maxminddb_Open path s.2).1 with
          | Some _ => []
          | None => [EvSwap]
          end
      end
  end.

End LockedRegion.

(** The events between [Lock] and [Unlock] of the writer lock. *)
Fixpoint under_lock (held : bool) (t : list Event) : list Event :=
  match t with
  | [] => []
  | EvLock :: t' => under_lock true t'
  | EvUnlock :: t' => under_lock false t'
  | e :: t' => if held then e :: under_lock held t' else under_lock held t'
  end.

(** File reading: hashing the file, and [os.Stat] and [maxminddb.Open] of
    [openDB]. *)
Definition is_file_io (e : Event) : bool :=
  match e with
  | EvSHA256 _ | EvStat _ | EvOpen _ => true
  | _ => false
  end.

(** The steps of the swap: closing the superseded reader, opening the new
    one through the file system and the reader library, and replacing the
    reference. *)
Definition is_swap_step (e : Event) : bool :=
  match e with
  | EvClose _ | EvStat _ | EvOpen _ | EvSwap => true
  | _ => false
  end.

Definition is_fingerprint (e : Event) : bool :=
  match e with
  | EvSHA256 _ => true
  | _ => false
  end.

(** ** A scripted world

    The fingerprints the next calls of [calculateFileSHA256] will see are
    queued; [os.Stat], [maxminddb.Open] and [Close] on an open reader answer
    the given errors.  A released reader behaves as the library documents:
    a second [Close] is harmless and [Lookup] reports a closed database. *)
Definition zero_Record : Record_ :=
  {| City_ := {| city_GeonameID := 0; city_Names_En := "" |};
     Continent_ := {| continent_GeonameID := 0; continent_Code := "" |};
     Country_ := {| country_GeonameID := 0; country_ISOCode := "" |} |}.

Definition berlin : Record_ :=
  {| City_ := {| city_GeonameID := 2950159; city_Names_En := "Berlin" |};
     Continent_ := {| continent_GeonameID := 6255148; continent_Code := "EU" |};
     Country_ := {| country_GeonameID := 2921044; country_ISOCode := "DE" |} |}.

Definition scripted (stat open_ close_ : option error)
    : Environment (list (bytes * option error)) :=
  {| calculateFileSHA256 := fun _ w =>
       match w with
       | r :: w' => (r, w')
       | [] => (([], Some "unexpected EOF"), [])
       end;
     os_Stat := fun _ w => (stat, w);
     os_IsNotExist := fun e => String.eqb e "no such file or directory";
     maxminddb_Open := fun _ w => (open_, w);
     Reader_Close := fun r w => (if rd_closed r then None else close_, w);
     Reader_Lookup := fun r _ _ =>
       if rd_closed r then (zero_Record, Some "cannot call Lookup on a closed database")
       else (berlin, None);
     SqliteStore_reload := fun w => (None, w);
     SqliteStore_close := fun w => (None, w);
     SqliteStore_GetAllCountries := fun _ =>
       ([ {| CountryISOCode := "DE"; CountryName := "Germany" |};
          {| CountryISOCode := "XX"; CountryName := "" |};
          {| CountryISOCode := "FR"; CountryName := "France" |} ], None);
     SqliteStore_GetCitiesByCountry := fun _ _ =>
       ([ {| GeoNameID := 1; CityName := "" |};
          {| GeoNameID := 2950159; CityName := "Berlin" |} ], None);
     time_Sleep := fun _ w => w |}.

Definition sum_old : bytes := [Byte.x01].
Definition sum_new : bytes := [Byte.x02].
Definition sum_mid : bytes := [Byte.x03].

(** A running service: one open reader, the stop channel open. *)
Definition running (w : list (bytes * option error)) : State (list (bytes * option error)) :=
  {| gl := {| mmdbPath := "/data/GeoLite2-City-maxmind_20240101.mmdb";
              sha256sum := sum_old;
              db := Some 0;
              locationDB := Some 0;
              stopCh := ChanOpen;
              reloadCheckInterval := 300 |};
     heap := [ {| rd_path := "/data/GeoLite2-City-maxmind_20240101.mmdb"; rd_closed := false |} ];
     world := w;
     trace := [] |}.

(** A data directory and the matcher and download server used in the
    examples. *)
Definition example_external (remote : string * option error) : External :=
  {| Match := simple_Match; getFilenameFromURL := fun _ => remote |}.

Definition example_fs : FS :=
  {| fs_files := [ "/data/GeoLite2-City-maxmind_20230201.mmdb";
                   "/data/GeoLite2-City-maxmind_20230301.mmdb";
                   "/data/geonames.db";
                   "/data/GeoLite2-City-maxmind_20230101.mmdb" ];
     fs_denied := [] |}.

Definition empty_fs : FS := {| fs_files := []; fs_denied := [] |}.

(** The same directory, where the file of February may not be removed. *)
Definition guarded_fs : FS :=
  {| fs_files := fs_files example_fs;
     fs_denied := [ "/data/GeoLite2-City-maxmind_20230201.mmdb" ] |}.

(** The character [c] occurs in [s]. *)
Fixpoint has_char (c : ascii) (s : string) : bool :=
  match s with
  | EmptyString => false
  | String d s' => Ascii.eqb c d || has_char c s'
  end.

(** ** The rest of the package: paths, startup and the old file names *)

Module GoPath.

(** The elements of a path, between its slashes; [cur] is the element
    being read. *)
Fixpoint elements (s cur : string) : list string :=
  match s with
  | EmptyString => [cur]
  | String c s' =>
      if GoStrings.is_slash c then cur :: elements s' ""
      else elements s' (cur +:+ String c "")
  end.

(** One element read by [path.Clean]; [kept] holds the elements written so
    far, the last one first.  Empty and [.] elements are dropped; [..]
    removes the element before it, and is itself written when there is
    nothing to remove on a path that is not rooted. *)
Definition clean_step (rooted : bool) (kept : list string) (e : string) : list string :=
  if String.eqb e "" then kept
  else if String.eqb e "." then kept
  else if String.eqb e ".." then
    match kept with
    | top :: below => if String.eqb top ".." then e :: kept else below
    | [] => if rooted then [] else [e]
    end
  else e :: kept.

(** [path.Clean] *)
Definition Clean (p : string) : string :=
  match p with
  | EmptyString => "."
  | String c _ =>
      let rooted := GoStrings.is_slash c in
      let kept := fold_left (clean_step rooted) (elements p "") [] in
      let body := String.concat "/" (rev kept) in
      if rooted then "/" +:+ body
      else if String.eqb body "" then "." else body
  end.

(** [path.Join]: the non-empty elements joined by slashes, then cleaned. *)
Definition Join (elem : list string) : string :=
  let buf :=
    fold_left (fun buf e =>
                 if bool_decide (buf ≠ "") then buf +:+ "/" +:+ e
                 else if bool_decide (e ≠ "") then e else buf)
              elem "" in
  if String.eqb buf "" then "" else Clean buf.

End GoPath.

Definition mmdbPattern : string := "GeoLite2-City-maxmind_*.mmdb".
Definition geonamesdbPattern : string := "GeoLite2-City-geonames_*.db".

Section Startup_files.
Context `{External}.

(** The addresses of the two archives, constants of the package declared
    in another file. *)
Variable geoLiteCityTarGZURL geoLiteCityZipURL : string.


(** The [switch] of [cleanupMaxMindDatabases] on one file name: the first
    case that equals it is taken. *)
Definition cleanup_case (dataDir mmdbFile geonamesdbFile file : string) (fs : FS)
    : option error * FS :=
  if String.eqb file mmdbFile then
    cleanupOldDatabases (GoPath.Join [dataDir; mmdbPattern]) file fs
  else if String.eqb file geonamesdbFile then
    cleanupOldDatabases (GoPath.Join [dataDir; geonamesdbPattern]) file fs
  else (None, fs).

Fixpoint cleanup_each (dataDir mmdbFile geonamesdbFile : string) (files : list string)
    (fs : FS) : option error * FS :=
  match files with
  | [] => (None, fs)
  | file :: rest =>
      match cleanup_case dataDir mmdbFile geonamesdbFile file fs with
      | (Some err, fs') => (Some err, fs')
      | (None, fs') => cleanup_each dataDir mmdbFile geonamesdbFile rest fs'
      end
  end.

Definition cleanupMaxMindDatabases (dataDir mmdbFile geonamesdbFile : string) (fs : FS)
    : option error * FS :=
  cleanup_each dataDir mmdbFile geonamesdbFile [mmdbFile; geonamesdbFile] fs.

End Startup_files.


(** What the constructor takes from other files of the package: the
    download of the databases into the data directory and the opening of
    the geonames store. *)
Class Startup (W : Type) : Type := {
  loadGeolocationDatabases : string -> string -> string -> FS -> W -> option error * FS * W;
  NewSqliteStore : string -> string -> W -> (option ptr * option error) * W
}.

Section Construction.
Context {W : Type} `{Environment W} `{Startup W} `{External}.
Local Open Scope go_scope.

Definition fileExists (filePath : string) : M W (bool * option error) :=
  err <- call (EvStat filePath) (os_Stat filePath) ;;
  match err with
  | None => ret (true, None)
  | Some e =>
      if os_IsNotExist e then ret (false, Some (filePath +:+ " does not exist"))
      else ret (false, Some e)
  end.

(** A call of the constructor into another file; the traces record the
    events of the running service only. *)
Definition unrecorded {A} (f : W -> A * W) : M W A :=
  fun st =>
    let '(a, w) := f (world st) in
    (Returns a, {| gl := gl st; heap := heap st; world := w; trace := trace st |}).

(** The zero value of the struct: the state before a service exists. *)
Definition zero_Geolocation : Geolocation :=
  {| mmdbPath := ""; sha256sum := []; db := None; locationDB := None;
     stopCh := ChanNil; reloadCheckInterval := 0 |}.

(** [NewGeolocation], up to the start of the reloader.  It runs on the
    data directory [fs] and on a state whose [gl] is not read; on success
    the new service is the [gl] of the final state and is returned. *)
Definition NewGeolocation (dataDir mmdbFile geonamesdbFile : string) (fs : FS)
    : State W -> outcome (option Geolocation * option error) * (FS * State W) :=
  fun st =>
    let '(err, fs1, w1) :=
      loadGeolocationDatabases dataDir mmdbFile geonamesdbFile fs (world st) in
    let st1 := {| gl := gl st; heap := heap st; world := w1; trace := trace st |} in
    match err with
    | Some e => (Returns (None, Some ("failed to load MaxMind databases: " +:+ e)), (fs1, st1))
    | None =>
        let '(err, fs2) := cleanupMaxMindDatabases dataDir mmdbFile geonamesdbFile fs1 in
        match err with
        | Some e =>
            (Returns (None, Some ("failed to remove old MaxMind databases: " +:+ e)), (fs2, st1))
        | None =>
            let mmdbPath := GoPath.Join [dataDir; mmdbFile] in
            let '(r, st') :=
              (res <- openDB mmdbPath ;;
               match res.2 with
               | Some e => ret (None, Some e)
               | None =>
                   sum <- call (EvSHA256 mmdbPath) (calculateFileSHA256 mmdbPath) ;;
                   match sum.2 with
                   | Some e => ret (None, Some e)
                   | None =>
                       store <- unrecorded (NewSqliteStore dataDir geonamesdbFile) ;;
                       match store.2 with
                       | Some e => ret (None, Some e)
                       | None =>
                           let geo :=
                             {| mmdbPath := mmdbPath; sha256sum := sum.1; db := res.1;
                                locationDB := store.1; stopCh := ChanOpen;
                                reloadCheckInterval := 300 |} in
                           set_gl geo ;; ret (Some geo, None)
                       end
                   end
               end) st1 in
            (r, (fs2, st'))
        end
    end.

End Construction.

(** The service has a reader behind its reference. *)
Definition serving {W} (st : State W) : Prop :=
  exists p r, db (gl st) = Some p /\ heap st !! p = Some r.

(** No lock operation among the events. *)
Definition lock_free (evs : list Event) : Prop :=
  Forall (fun e => e ≠ EvLock /\ e ≠ EvUnlock /\ e ≠ EvRLock /\ e ≠ EvRUnlock) evs.


(** A data directory holding two versions of each database. *)
Definition startup_fs : FS :=
  {| fs_files := [ "/data/GeoLite2-City-maxmind_20230201.mmdb";
                   "/data/GeoLite2-City-geonames_20230201.db";
                   "/data/GeoLite2-City-maxmind_20230301.mmdb";
                   "/data/GeoLite2-City-geonames_20230301.db";
                   "/data/notes.txt" ];
     fs_denied := [] |}.

(** The reader [r] once [Close] has been called on it. *)
Definition released (r : Reader) : Reader :=
  {| rd_path := rd_path r; rd_closed := true |}.

(** A startup in which the download changes nothing and the geonames
    store opens. *)
Definition example_startup : Startup (list (bytes * option error)) :=
  {| loadGeolocationDatabases := fun _ _ _ fs w => (None, fs, w);
     NewSqliteStore := fun _ _ w => ((Some 0, None), w) |}.

(** The state before the constructor runs: no reader, no event. *)
Definition boot (w : list (bytes * option error)) : State (list (bytes * option error)) :=
  {| gl := zero_Geolocation; heap := []; world := w; trace := [] |}.


Definition mmdb_20240101 : string := "/data/GeoLite2-City-maxmind_20240101.mmdb".

(** ** The signal server: which requests go to gRPC *)

Module Signal.

(** [strings.HasPrefix] *)
Definition HasPrefix (s prefix : string) : bool := String.prefix prefix s.

(** The test of the handler of [grpcHandlerFunc], on the major protocol
    version of the request and on its Content-Type header: whether the
    request is passed to the gRPC server.  A request that is not passed gets
    nothing written by the handler. *)
Definition grpcHandlerFunc (ProtoMajor : Z) (contentType : string) : bool :=
  let grpcHeader :=
    HasPrefix contentType "application/grpc" ||
    HasPrefix contentType "application/grpc+proto" in
  bool_decide (ProtoMajor = 2%Z) && grpcHeader.

End Signal.

(** * Properties *)

Example Cut_ex : GoStrings.Cut "_" "GeoLite2-City_20240101" = Some ("GeoLite2-City", "20240101").
Proof. reflexivity. Qed.
Example SplitN_ex1 : GoStrings.SplitN "GeoLite2-City_20240101.tar.gz" "." 2 = ["GeoLite2-City_20240101"; "tar.gz"].
Proof. reflexivity. Qed.
Example SplitN_ex2 : GoStrings.SplitN "a_b_c" "_" 2 = ["a"; "b_c"].
Proof. reflexivity. Qed.
Example SplitN_ex3 : GoStrings.SplitN "" "." 2 = [""].
Proof. reflexivity. Qed.
Example Replace_ex : GoStrings.Replace "/d/x_*.mmdb" "*" "2024" 1 = "/d/x_2024.mmdb".
Proof. reflexivity. Qed.
Example Base_ex1 : GoStrings.Base "/var/lib/x_2024.mmdb" = "x_2024.mmdb".
Proof. reflexivity. Qed.
Example Base_ex2 : GoStrings.Base "a/b//" = "b".
Proof. reflexivity. Qed.
Example Base_ex3 : GoStrings.Base "///" = "/".
Proof. reflexivity. Qed.
Example Base_ex4 : GoStrings.Base "" = ".".
Proof. reflexivity. Qed.

(** ** Strings *)

Section StringFacts.

Lemma app_String c (a b : string) : String c a +:+ b = String c (a +:+ b).
Proof. reflexivity. Qed.

Lemma app_empty_l (b : string) : "" +:+ b = b.
Proof. reflexivity. Qed.

Lemma app_empty_r (a : string) : a +:+ "" = a.
Proof. induction a as [|c a IH]; [done|]. by rewrite app_String, IH. Qed.

Lemma app_assoc_s (a b c : string) : (a +:+ b) +:+ c = a +:+ b +:+ c.
Proof. induction a as [|d a IH]; [done|]. by rewrite !app_String, IH. Qed.

Lemma prefix_char c d s :
  String.prefix (String c "") (String d s) = Ascii.eqb c d.
Proof.
  simpl. destruct (ascii_dec c d) as [->|Hne].
  - rewrite Ascii.eqb_refl. by destruct s.
  - symmetry. by apply Ascii.eqb_neq.
Qed.

Lemma Cut_absent c s :
  has_char c s = false -> GoStrings.Cut (String c "") s = None.
Proof.
  induction s as [|d s IH]; intros Hc; [done|].
  simpl in Hc. apply orb_false_iff in Hc as [Hd Hs].
  change (GoStrings.Cut (String c "") (String d s)) with
    (if String.prefix (String c "") (String d s) then Some ("", GoStrings.skip 1 (String d s))
     else match GoStrings.Cut (String c "") s with
          | Some (before, after) => Some (String d before, after)
          | None => None
          end).
  by rewrite prefix_char, Hd, IH.
Qed.

Lemma Cut_first c a b :
  has_char c a = false ->
  GoStrings.Cut (String c "") (a +:+ String c b) = Some (a, b).
Proof.
  induction a as [|d a IH]; intros Hc.
  - rewrite app_empty_l.
    change (GoStrings.Cut (String c "") (String c b)) with
      (if String.prefix (String c "") (String c b) then Some ("", b)
       else match GoStrings.Cut (String c "") b with
            | Some (before, after) => Some (String c before, after)
            | None => None
            end).
    by rewrite prefix_char, Ascii.eqb_refl.
  - simpl in Hc. apply orb_false_iff in Hc as [Hd Ha].
    rewrite app_String.
    change (GoStrings.Cut (String c "") (String d (a +:+ String c b))) with
      (if String.prefix (String c "") (String d (a +:+ String c b))
       then Some ("", GoStrings.skip 1 (String d (a +:+ String c b)))
       else match GoStrings.Cut (String c "") (a +:+ String c b) with
            | Some (before, after) => Some (String d before, after)
            | None => None
            end).
    by rewrite prefix_char, Hd, IH.
Qed.

Lemma Cut_first_app c a b :
  has_char c a = false ->
  GoStrings.Cut (String c "") (a +:+ String c "" +:+ b) = Some (a, b).
Proof. apply Cut_first. Qed.

Lemma has_char_app c a b : has_char c (a +:+ b) = has_char c a || has_char c b.
Proof.
  induction a as [|d a IH]; [done|].
  rewrite app_String. simpl. by rewrite IH, orb_assoc.
Qed.

Lemma has_char_elem_of c s : has_char c s = true <-> c ∈ list_ascii_of_string s.
Proof.
  induction s as [|d s IH]; simpl.
  - split; [done|]. by intros ?%elem_of_nil.
  - rewrite orb_true_iff, IH, elem_of_cons, Ascii.eqb_eq. done.
Qed.

Lemma list_ascii_of_string_app a b :
  list_ascii_of_string (a +:+ b) = list_ascii_of_string a ++ list_ascii_of_string b.
Proof. induction a as [|d a IH]; [done|]. rewrite app_String. simpl. by rewrite IH. Qed.

Lemma drop_slashes_head c cs :
  GoStrings.is_slash c = false -> GoStrings.drop_slashes (c :: cs) = c :: cs.
Proof. intros Hc. simpl. by rewrite Hc. Qed.

Lemma until_slash_app l cs :
  (forall c, c ∈ l -> GoStrings.is_slash c = false) ->
  GoStrings.until_slash (l ++ "/"%char :: cs) = l.
Proof.
  induction l as [|c l IH]; intros Hl; [done|].
  simpl. rewrite (Hl c) by apply list_elem_of_here.
  f_equal. apply IH. intros d Hd. apply Hl. by apply list_elem_of_further.
Qed.

(** The base name of a file directly under a directory. *)
Lemma Base_join d n :
  n ≠ "" -> has_char "/" n = false -> GoStrings.Base (d +:+ "/" +:+ n) = n.
Proof.
  intros Hn Hs. unfold GoStrings.Base.
  assert (Hnoslash : forall c, c ∈ rev (list_ascii_of_string n) -> GoStrings.is_slash c = false).
  { intros c Hc. rewrite list_elem_of_In, <- in_rev, <- list_elem_of_In in Hc.
    unfold GoStrings.is_slash. apply Ascii.eqb_neq. intros ->.
    apply has_char_elem_of in Hc. congruence. }
  destruct (String.eqb_spec (d +:+ "/" +:+ n) "") as [He|_].
  { apply (f_equal list_ascii_of_string) in He.
    rewrite list_ascii_of_string_app in He. simpl in He.
    by apply app_eq_nil in He as [_ ?]. }
  rewrite !list_ascii_of_string_app, rev_app_distr. simpl.
  rewrite <- app_assoc. simpl.
  destruct (rev (list_ascii_of_string n)) as [|c l] eqn:Hr.
  { apply (f_equal (@rev ascii)) in Hr. rewrite rev_involutive in Hr. simpl in Hr.
    apply (f_equal string_of_list_ascii) in Hr.
    rewrite string_of_list_ascii_of_string in Hr. done. }
  rewrite <- app_comm_cons. simpl.
  rewrite (Hnoslash c) by apply list_elem_of_here.
  change (c :: l ++ "/"%char :: rev (list_ascii_of_string d))
    with ((c :: l) ++ "/"%char :: rev (list_ascii_of_string d)).
  rewrite until_slash_app by done.
  rewrite <- Hr, rev_involutive. apply string_of_list_ascii_of_string.
Qed.

Lemma compare_refl s : String.compare s s = Eq.
Proof.
  induction s as [|c s IH]; [done|]. simpl.
  unfold Ascii.compare. by rewrite N.compare_refl.
Qed.

Lemma compare_app_l d a b : String.compare (d +:+ a) (d +:+ b) = String.compare a b.
Proof.
  induction d as [|c d IH]; [done|]. rewrite !app_String. simpl.
  unfold Ascii.compare. by rewrite N.compare_refl.
Qed.

Lemma le_app_l d a b : String.le (d +:+ a) (d +:+ b) <-> String.le a b.
Proof. unfold String.le, String.leb. by rewrite compare_app_l. Qed.

End StringFacts.

(** ** The file selector: the remote branch *)

Section RemoteName.
Context `{External}.

Lemma SplitN_stem stem rest :
  has_char "." stem = false ->
  rest = "" \/ (exists r, rest = String "." r) ->
  GoStrings.at_index (GoStrings.SplitN (stem +:+ rest) "." 2) 0 = Returns stem.
Proof.
  intros Hdot [->|[r ->]].
  - rewrite app_empty_r.
    cbn [GoStrings.SplitN]. by rewrite Cut_absent.
  - cbn [GoStrings.SplitN]. by rewrite Cut_first.
Qed.

Lemma SplitN_no_underscore stem :
  has_char "_" stem = false ->
  GoStrings.at_index (GoStrings.SplitN stem "_" 2) 1 = Panics index_out_of_range.
Proof. intros Hu. cbn [GoStrings.SplitN]. by rewrite Cut_absent. Qed.

Lemma SplitN_date kind date :
  has_char "_" kind = false ->
  GoStrings.at_index (GoStrings.SplitN (kind +:+ "_" +:+ date) "_" 2) 1 = Returns date.
Proof. intros Hu. cbn [GoStrings.SplitN]. by rewrite Cut_first_app. Qed.

Lemma has_char_split c s :
  has_char c s = true ->
  exists a b, s = a +:+ String c b /\ has_char c a = false.
Proof.
  induction s as [|d s IH]; [done|]. simpl.
  destruct (Ascii.eqb c d) eqn:Hcd.
  - apply Ascii.eqb_eq in Hcd as <-. intros _. by exists "", s.
  - simpl. intros (a & b & -> & Ha)%IH. exists (String d a), b.
    split; [done|]. simpl. by rewrite Hcd, Ha.
Qed.

Lemma Replace_wildcard pre post date :
  has_char "*" pre = false ->
  GoStrings.Replace (pre +:+ "*" +:+ post) "*" date 1 = pre +:+ date +:+ post.
Proof. intros Hp. cbn [GoStrings.Replace]. by rewrite Cut_first_app. Qed.

(** With discovery on and successful, the local files are not scanned. *)
Lemma getDatabaseFilename_remote url pattern fs f :
  getFilenameFromURL url = (f, None) ->
  getDatabaseFilename url pattern true fs =
    match GoStrings.at_index (GoStrings.SplitN f "." 2) 0 with
    | Panics msg => Panics msg
    | Returns basename =>
        match GoStrings.at_index (GoStrings.SplitN basename "_" 2) 1 with
        | Panics msg => Panics msg
        | Returns date =>
            Returns (GoStrings.Base (GoStrings.Replace pattern "*" date 1), None)
        end
    end.
Proof. intros Hr. unfold getDatabaseFilename. by rewrite Hr. Qed.

(** C9: when remote discovery is requested and succeeds with a name
    [kind_date.ext], the selector returns the base name of the pattern with
    its wildcard replaced by [date], the part after the first underscore of
    the part before the first dot; for a pattern [dir/stem*post] that is
    [stem date post].  The files of the directory play no part: the
    result is the same for every directory content. *)
Theorem getDatabaseFilename_remote_date url pattern fs f kind date rest pre post :
  getFilenameFromURL url = (f, None) ->
  f = kind +:+ "_" +:+ date +:+ rest ->
  has_char "_" kind = false -> has_char "." kind = false ->
  has_char "." date = false ->
  rest = "" \/ (exists r, rest = String "." r) ->
  pattern = pre +:+ "*" +:+ post -> has_char "*" pre = false ->
  getDatabaseFilename url pattern true fs
    = Returns (GoStrings.Base (pre +:+ date +:+ post), None) /\
  (forall dir stem,
      pre = dir +:+ "/" +:+ stem ->
      has_char "/" (stem +:+ date +:+ post) = false ->
      stem +:+ date +:+ post ≠ "" ->
      getDatabaseFilename url pattern true fs = Returns (stem +:+ date +:+ post, None)).
Proof.
  intros Hr -> Hk1 Hk2 Hd Hrest -> Hpre.
  assert (Hmain : getDatabaseFilename url (pre +:+ "*" +:+ post) true fs
                  = Returns (GoStrings.Base (pre +:+ date +:+ post), None)).
  { rewrite (getDatabaseFilename_remote _ _ _ _ Hr).
    assert (kind +:+ "_" +:+ date +:+ rest = (kind +:+ "_" +:+ date) +:+ rest) as ->.
    { by rewrite (app_assoc_s kind), (app_assoc_s "_"). }
    rewrite SplitN_stem; [|
      rewrite has_char_app, Hk2; simpl; exact Hd | done].
    rewrite SplitN_date by done.
    by rewrite Replace_wildcard. }
  split; [exact Hmain|].
  intros dir stem -> Hslash Hne. rewrite Hmain. f_equal. f_equal.
  assert ((dir +:+ "/" +:+ stem) +:+ date +:+ post
          = dir +:+ "/" +:+ (stem +:+ date +:+ post)) as ->.
  { by rewrite (app_assoc_s dir), (app_assoc_s "/"). }
  by apply Base_join.
Qed.

(** C10: the derivation is total only when the part of the remote
    filename before its first dot contains an underscore: without one the
    unguarded index [1] into the split panics, no error is returned; with
    one a filename is returned. *)
Theorem getDatabaseFilename_remote_underscore url pattern fs f stem rest :
  getFilenameFromURL url = (f, None) ->
  f = stem +:+ rest ->
  has_char "." stem = false ->
  rest = "" \/ (exists r, rest = String "." r) ->
  (has_char "_" stem = false ->
     getDatabaseFilename url pattern true fs = Panics index_out_of_range) /\
  (has_char "_" stem = true ->
     exists name, getDatabaseFilename url pattern true fs = Returns (name, None)).
Proof.
  intros Hr -> Hdot Hrest.
  rewrite (getDatabaseFilename_remote _ _ _ _ Hr), SplitN_stem by done.
  split; intros Hu.
  - by rewrite SplitN_no_underscore.
  - apply has_char_split in Hu as (a & b & -> & Ha).
    change (a +:+ String "_" b) with (a +:+ "_" +:+ b).
    rewrite SplitN_date by done. eauto.
Qed.

End RemoteName.

Lemma getDatabaseFilename_remote_date_witness :
  @getDatabaseFilename (example_external ("GeoLite2-City_20240105.tar.gz", None))
    "https://pkgs.example/geolite2-city" "/data/GeoLite2-City-maxmind_*.mmdb" true example_fs
  = Returns ("GeoLite2-City-maxmind_20240105.mmdb", None).
Proof.
  refine (proj2 (@getDatabaseFilename_remote_date
    (example_external ("GeoLite2-City_20240105.tar.gz", None))
    "https://pkgs.example/geolite2-city" "/data/GeoLite2-City-maxmind_*.mmdb" example_fs
    "GeoLite2-City_20240105.tar.gz" "GeoLite2-City" "20240105" ".tar.gz"
    "/data/GeoLite2-City-maxmind_" ".mmdb" _ _ _ _ _ _ _ _)
    "/data" "GeoLite2-City-maxmind_" _ _ _);
    try reflexivity.
  - right. exists "tar.gz". reflexivity.
  - discriminate.
Defined.

Lemma getDatabaseFilename_remote_underscore_witness :
  let url := "https://pkgs.example/geolite2-city" in
  let pattern := "/data/GeoLite2-City-maxmind_*.mmdb" in
  @getDatabaseFilename (example_external ("GeoLite2-City.tar.gz", None))
    url pattern true example_fs
  = Panics index_out_of_range /\
  exists name,
    @getDatabaseFilename (example_external ("GeoLite2-City_20240105.tar.gz", None))
      url pattern true example_fs
    = Returns (name, None).
Proof.
  split.
  - refine (proj1 (@getDatabaseFilename_remote_underscore
      (example_external ("GeoLite2-City.tar.gz", None))
      "https://pkgs.example/geolite2-city" "/data/GeoLite2-City-maxmind_*.mmdb" example_fs
      "GeoLite2-City.tar.gz" "GeoLite2-City" ".tar.gz" _ _ _ _) _);
      try reflexivity.
    right. exists "tar.gz". reflexivity.
  - refine (proj2 (@getDatabaseFilename_remote_underscore
      (example_external ("GeoLite2-City_20240105.tar.gz", None))
      "https://pkgs.example/geolite2-city" "/data/GeoLite2-City-maxmind_*.mmdb" example_fs
      "GeoLite2-City_20240105.tar.gz" "GeoLite2-City_20240105" ".tar.gz" _ _ _ _) _);
      try reflexivity.
    right. exists "tar.gz". reflexivity.
Defined.

(** ** The file selector: the local branch *)

Section LocalFiles.
Context `{External}.

Lemma Glob_elem pattern fs p :
  p ∈ Glob pattern fs <-> Match pattern p /\ p ∈ fs_files fs.
Proof. unfold Glob. by rewrite merge_sort_Permutation, list_elem_of_filter. Qed.

Lemma Glob_sorted pattern fs : StronglySorted String.le (Glob pattern fs).
Proof. apply (StronglySorted_merge_sort _). Qed.

Lemma Glob_nil pattern fs :
  Glob pattern fs = [] <-> filter (fun p => Match pattern p) (fs_files fs) = [].
Proof.
  unfold Glob. split; intros Hnil.
  - apply Permutation_nil_r. rewrite <- Hnil. by rewrite merge_sort_Permutation.
  - by rewrite Hnil.
Qed.

(** The last path of a sorted list is the greatest. *)
Lemma sorted_last_greatest (l : list string) x :
  StronglySorted String.le l -> last l = Some x ->
  forall y, y ∈ l -> String.le y x.
Proof.
  intros Hs (l' & ->)%last_Some y [Hy|Hy%list_elem_of_singleton]%elem_of_app.
  - eapply StronglySorted_app_1_elem_of; [exact Hs|exact Hy|].
    by apply list_elem_of_singleton.
  - by subst.
Qed.

Lemma getDatabaseFilename_scan url pattern autoUpdate fs :
  autoUpdate = false \/ (getFilenameFromURL url).2 ≠ None ->
  getDatabaseFilename url pattern autoUpdate fs =
    match last (Glob pattern fs) with
    | None => Returns ("", Some "database does not exist")
    | Some p => Returns (GoStrings.Base p, None)
    end.
Proof.
  intros Hlocal. unfold getDatabaseFilename, getExistingDatabases, GoStrings.at_index.
  assert (Hscan : (let '(_, err) :=
                     if autoUpdate then getFilenameFromURL url else ("", None) in
                   bool_decide (err ≠ None) || negb autoUpdate) = true).
  { destruct autoUpdate; [|done].
    destruct Hlocal as [?|Hr]; [done|].
    destruct (getFilenameFromURL url) as [f e]. simpl in *.
    by rewrite bool_decide_eq_true_2. }
  destruct (if autoUpdate then getFilenameFromURL url else ("", None)) as [f e].
  rewrite Hscan. rewrite last_lookup.
  destruct (Glob pattern fs) as [|p l]; [done|].
  rewrite bool_decide_eq_false_2 by (simpl; lia).
  replace (length (p :: l) - 1) with (pred (length (p :: l))) by (simpl; lia).
  destruct ((p :: l) !! pred (length (p :: l))) eqn:Hl; [done|].
  apply lookup_ge_None in Hl. simpl in Hl. lia.
Qed.

Lemma getDatabaseFilename_error_scan url pattern autoUpdate fs s e :
  getDatabaseFilename url pattern autoUpdate fs = Returns (s, Some e) ->
  autoUpdate = false \/ (getFilenameFromURL url).2 ≠ None.
Proof.
  destruct autoUpdate; [|by left]. right.
  destruct (getFilenameFromURL url) as [f [err|]] eqn:Hr; [done|].
  rewrite (getDatabaseFilename_remote _ _ _ _ Hr) in H0.
  repeat case_match; simplify_eq.
Qed.

(** C6: when remote discovery is not requested or fails, the selector
    returns the lexicographically last file name among the files of the
    directory that match the pattern; and it fails, with the error that no
    database exists, exactly when no remote name was derived and no local
    file matches. *)
Theorem getDatabaseFilename_local url pattern autoUpdate fs dir :
  (forall q, q ∈ fs_files fs -> Match pattern q ->
     exists n, q = dir +:+ "/" +:+ n /\ n ≠ "" /\ has_char "/" n = false) ->
  let local := autoUpdate = false \/ (getFilenameFromURL url).2 ≠ None in
  let matching := filter (fun p => Match pattern p) (fs_files fs) in
  let result := getDatabaseFilename url pattern autoUpdate fs in
  (local -> matching = [] ->
     result = Returns ("", Some "database does not exist")) /\
  (local -> matching ≠ [] ->
     exists name, result = Returns (name, None) /\
       dir +:+ "/" +:+ name ∈ matching /\
       forall n, dir +:+ "/" +:+ n ∈ matching -> String.le n name) /\
  ((exists s e, result = Returns (s, Some e)) <-> local /\ matching = []).
Proof.
  intros Hdir local matching result. subst local matching result.
  split; [|split].
  - intros Hlocal Hnil. rewrite getDatabaseFilename_scan by done.
    apply Glob_nil in Hnil. by rewrite Hnil.
  - intros Hlocal Hne. rewrite getDatabaseFilename_scan by done.
    destruct (last (Glob pattern fs)) as [p|] eqn:Hlast.
    + assert (Hp : p ∈ Glob pattern fs) by by apply last_Some_elem_of.
      pose proof Hp as [Hm Hin]%Glob_elem.
      destruct (Hdir p Hin Hm) as (name & -> & Hn & Hs).
      exists name. rewrite Base_join by done. split; [done|]. split.
      * by apply list_elem_of_filter.
      * intros n [Hmn Hinn]%list_elem_of_filter.
        apply (le_app_l (dir +:+ "/")). rewrite !app_assoc_s.
        eapply sorted_last_greatest; [apply Glob_sorted|exact Hlast|].
        by apply Glob_elem.
    + apply last_None, Glob_nil in Hlast. done.
  - split.
    + intros (s & e & Hres).
      assert (Hlocal := getDatabaseFilename_error_scan _ _ _ _ _ _ Hres).
      split; [done|]. rewrite getDatabaseFilename_scan in Hres by done.
      destruct (last (Glob pattern fs)) eqn:Hlast; [done|].
      by apply last_None, Glob_nil in Hlast.
    + intros [Hlocal Hnil]. rewrite getDatabaseFilename_scan by done.
      apply Glob_nil in Hnil. rewrite Hnil. eauto.
Qed.

End LocalFiles.

Lemma getDatabaseFilename_local_witness :
  let ext := example_external ("", Some "no route to host") in
  let url := "https://pkgs.example/geolite2-city" in
  let pattern := "/data/GeoLite2-City-maxmind_*.mmdb" in
  let matching := filter (fun p => @Match ext pattern p) (fs_files example_fs) in
  let result := @getDatabaseFilename ext url pattern true example_fs in
  (result = Returns ("GeoLite2-City-maxmind_20230301.mmdb", None) /\
   exists name, result = Returns (name, None) /\
     "/data" +:+ "/" +:+ name ∈ matching /\
     forall n, "/data" +:+ "/" +:+ n ∈ matching -> String.le n name) /\
  @getDatabaseFilename ext url pattern false empty_fs
    = Returns ("", Some "database does not exist").
Proof.
  split; [split; [reflexivity|]|].
  - refine (proj1 (proj2 (@getDatabaseFilename_local
      (example_external ("", Some "no route to host"))
      "https://pkgs.example/geolite2-city" "/data/GeoLite2-City-maxmind_*.mmdb" true
      example_fs "/data" _)) _ _).
    + intros q Hq Hm.
      repeat (apply elem_of_cons in Hq as [->|Hq]);
        [ exists "GeoLite2-City-maxmind_20230201.mmdb"
        | exists "GeoLite2-City-maxmind_20230301.mmdb"
        | exists "geonames.db"
        | exists "GeoLite2-City-maxmind_20230101.mmdb"
        | by apply elem_of_nil in Hq ];
        (split; [reflexivity|split; [discriminate|reflexivity]]).
    + right. discriminate.
    + discriminate.
  - refine (proj1 (@getDatabaseFilename_local
      (example_external ("", Some "no route to host"))
      "https://pkgs.example/geolite2-city" "/data/GeoLite2-City-maxmind_*.mmdb" false
      empty_fs "/data" _) _ _).
    + intros q Hq. by apply elem_of_nil in Hq.
    + left. reflexivity.
    + reflexivity.
Defined.

(** ** The cleanup of old databases *)

Section Cleanup.
Context `{External}.

Lemma filter_all {A} (P : A -> Prop) `{forall x, Decision (P x)} (l : list A) :
  (forall x, x ∈ l -> P x) -> filter P l = l.
Proof.
  induction l as [|x l IH]; intros Hall; [done|].
  rewrite filter_cons_True by (apply Hall, list_elem_of_here).
  f_equal. apply IH. intros y Hy. by apply Hall, list_elem_of_further.
Qed.

Lemma without_nil fs : without [] fs = fs.
Proof.
  destruct fs as [files denied]. unfold without. simpl. f_equal.
  apply filter_all. intros x _. apply not_elem_of_nil.
Qed.

Lemma without_cons db gone fs :
  without gone (without [db] fs) = without (db :: gone) fs.
Proof.
  unfold without. simpl. f_equal. rewrite list_filter_filter.
  apply list_filter_iff. intros x.
  rewrite not_elem_of_cons, !not_elem_of_cons. pose proof (not_elem_of_nil x). tauto.
Qed.

Lemma os_Remove_ok db fs :
  db ∈ fs_files fs -> db ∉ fs_denied fs -> os_Remove db fs = (None, without [db] fs).
Proof.
  intros Hin Hden. unfold os_Remove, without.
  rewrite bool_decide_eq_false_2, bool_decide_eq_true_2 by done.
  do 2 f_equal. apply list_filter_iff. intros x. by rewrite list_elem_of_singleton.
Qed.

Lemma os_Remove_denied db fs :
  db ∈ fs_denied fs ->
  os_Remove db fs = (Some ("remove " +:+ db +:+ ": operation not permitted"), fs).
Proof. intros Hden. unfold os_Remove. by rewrite bool_decide_eq_true_2. Qed.

(** The paths with the current base name are passed over. *)
Lemma cleanup_loop_victims l cur fs :
  cleanup_loop l cur fs
  = cleanup_loop (filter (fun p => GoStrings.Base p ≠ cur) l) cur fs.
Proof.
  revert fs. induction l as [|db l IH]; intros fs; [done|].
  rewrite filter_cons. simpl.
  destruct (String.eqb_spec (GoStrings.Base db) cur) as [Heq|Hne].
  - rewrite decide_False by (intros Hn; by apply Hn). apply IH.
  - rewrite decide_True by done. simpl.
    destruct (String.eqb_spec (GoStrings.Base db) cur) as [Heq|_]; [done|].
    destruct (os_Remove db fs) as [[e|] fs']; [done|]. apply IH.
Qed.

(** The loop over victims none of which is refused. *)
Lemma cleanup_loop_all v cur fs :
  NoDup v ->
  (forall p, p ∈ v -> GoStrings.Base p ≠ cur /\ p ∈ fs_files fs /\ p ∉ fs_denied fs) ->
  cleanup_loop v cur fs = (None, without v fs).
Proof.
  revert fs. induction v as [|db v IH]; intros fs Hnd Hv.
  - by rewrite without_nil.
  - apply NoDup_cons in Hnd as [Hdb Hnd].
    destruct (Hv db) as (Hb & Hin & Hden); [apply list_elem_of_here|].
    simpl. destruct (String.eqb_spec (GoStrings.Base db) cur) as [Heq|_]; [done|].
    rewrite os_Remove_ok by done.
    rewrite IH, without_cons; [done|done|].
    intros p Hp. destruct (Hv p) as (? & ? & ?); [by apply list_elem_of_further|].
    split; [done|]. split; [|done].
    simpl. apply list_elem_of_filter. split; [|done].
    rewrite list_elem_of_singleton. by intros ->.
Qed.

(** The loop stops at the first victim whose removal is refused. *)
Lemma cleanup_loop_stops pre p post cur fs :
  NoDup (pre ++ p :: post) ->
  (forall q, q ∈ pre -> GoStrings.Base q ≠ cur /\ q ∈ fs_files fs /\ q ∉ fs_denied fs) ->
  GoStrings.Base p ≠ cur -> p ∈ fs_denied fs ->
  cleanup_loop (pre ++ p :: post) cur fs
  = (Some ("remove " +:+ p +:+ ": operation not permitted"), without pre fs).
Proof.
  revert fs. induction pre as [|db pre IH]; intros fs Hnd Hpre Hb Hden.
  - simpl. destruct (String.eqb_spec (GoStrings.Base p) cur) as [Heq|_]; [done|].
    by rewrite os_Remove_denied, without_nil.
  - rewrite <- app_comm_cons in Hnd. apply NoDup_cons in Hnd as [Hdb Hnd].
    destruct (Hpre db) as (Hbd & Hin & Hdend); [apply list_elem_of_here|].
    rewrite <- app_comm_cons. simpl.
    destruct (String.eqb_spec (GoStrings.Base db) cur) as [Heq|_]; [done|].
    rewrite os_Remove_ok by done.
    rewrite IH, without_cons; [done|done| |done|done].
    intros q Hq. destruct (Hpre q) as (? & ? & ?); [by apply list_elem_of_further|].
    split; [done|]. split; [|done].
    simpl. apply list_elem_of_filter. split; [|done].
    rewrite list_elem_of_singleton. intros ->.
    apply Hdb, elem_of_app. by left.
Qed.

Lemma cleanup_loop_keeps l cur fs p :
  p ∈ fs_files fs -> GoStrings.Base p = cur ->
  p ∈ fs_files (cleanup_loop l cur fs).2.
Proof.
  revert fs. induction l as [|db l IH]; intros fs Hin Hb; [done|].
  simpl. destruct (String.eqb_spec (GoStrings.Base db) cur) as [Heq|Hne]; [by apply IH|].
  unfold os_Remove. repeat case_bool_decide; simpl; [done| |done].
  apply IH; [|done]. simpl. apply list_elem_of_filter. split; [|done].
  intros ->. done.
Qed.

(** C7: the cleanup removes exactly the files that match the pattern and
    whose base name differs from the current file name, which is never
    removed; the first removal that fails ends the cleanup, leaving the
    later files in place, and its error is returned. *)
Theorem cleanupOldDatabases_removes pattern currentFile fs :
  NoDup (fs_files fs) ->
  let victims := filter (fun p => GoStrings.Base p ≠ currentFile) (Glob pattern fs) in
  (forall p, p ∈ victims <->
     p ∈ fs_files fs /\ Match pattern p /\ GoStrings.Base p ≠ currentFile) /\
  ((forall p, p ∈ victims -> p ∉ fs_denied fs) ->
     cleanupOldDatabases pattern currentFile fs = (None, without victims fs)) /\
  (forall pre p post,
     victims = pre ++ p :: post ->
     (forall q, q ∈ pre -> q ∉ fs_denied fs) -> p ∈ fs_denied fs ->
     cleanupOldDatabases pattern currentFile fs
     = (Some ("remove " +:+ p +:+ ": operation not permitted"), without pre fs)) /\
  (forall p, p ∈ fs_files fs -> GoStrings.Base p = currentFile ->
     p ∈ fs_files (cleanupOldDatabases pattern currentFile fs).2).
Proof.
  intros Hnd victims.
  assert (Hvictims : forall p, p ∈ victims <->
            p ∈ fs_files fs /\ Match pattern p /\ GoStrings.Base p ≠ currentFile).
  { intros p. unfold victims. rewrite list_elem_of_filter, Glob_elem. tauto. }
  assert (Hndv : NoDup victims).
  { apply NoDup_filter. unfold Glob. rewrite merge_sort_Permutation.
    by apply NoDup_filter. }
  unfold cleanupOldDatabases, getExistingDatabases.
  rewrite cleanup_loop_victims. fold victims.
  split; [exact Hvictims|]. split; [|split].
  - intros Hfree. apply cleanup_loop_all; [done|].
    intros p Hp. pose proof Hp as (? & ? & ?)%Hvictims. auto.
  - intros pre p post Hsplit Hfree Hden.
    assert (Hp : p ∈ victims) by (rewrite Hsplit, elem_of_app, elem_of_cons; auto).
    rewrite Hsplit in Hndv |- *.
    apply cleanup_loop_stops; [done| |by apply Hvictims in Hp as (? & ? & ?)|done].
    intros q Hq.
    assert (Hqv : q ∈ victims) by (rewrite Hsplit, elem_of_app; auto).
    apply Hvictims in Hqv as (? & ? & ?). auto.
  - intros p Hin Hb. by apply cleanup_loop_keeps.
Qed.

End Cleanup.

Lemma cleanupOldDatabases_removes_witness :
  let ext := example_external ("", None) in
  let pattern := "/data/GeoLite2-City-maxmind_*.mmdb" in
  let current := "GeoLite2-City-maxmind_20230301.mmdb" in
  NoDup (fs_files example_fs) /\
  @cleanupOldDatabases ext pattern current example_fs
  = (None, {| fs_files := [ "/data/GeoLite2-City-maxmind_20230301.mmdb"; "/data/geonames.db" ];
              fs_denied := [] |}) /\
  @cleanupOldDatabases ext pattern current guarded_fs
  = (Some "remove /data/GeoLite2-City-maxmind_20230201.mmdb: operation not permitted",
     without [ "/data/GeoLite2-City-maxmind_20230101.mmdb" ] guarded_fs) /\
  "/data/GeoLite2-City-maxmind_20230301.mmdb"
    ∈ fs_files (@cleanupOldDatabases ext pattern current example_fs).2.
Proof.
  intros ext pattern current.
  assert (Hnd : NoDup (fs_files example_fs)).
  { apply (bool_decide_unpack (NoDup (fs_files example_fs))). exact I. }
  split; [exact Hnd|]. split; [|split].
  - etransitivity.
    + apply (proj1 (proj2 (@cleanupOldDatabases_removes ext pattern current example_fs Hnd))).
      intros p _. simpl. apply not_elem_of_nil.
    + reflexivity.
  - apply (proj1 (proj2 (proj2 (@cleanupOldDatabases_removes ext pattern current
             guarded_fs Hnd)))
             [ "/data/GeoLite2-City-maxmind_20230101.mmdb" ]
             "/data/GeoLite2-City-maxmind_20230201.mmdb"
             [ ]).
    + reflexivity.
    + intros q Hq%list_elem_of_singleton. subst q. simpl.
      intros Hin%list_elem_of_singleton. discriminate Hin.
    + simpl. apply list_elem_of_here.
  - apply (proj2 (proj2 (proj2 (@cleanupOldDatabases_removes ext pattern current
             example_fs Hnd)))).
    + simpl. apply list_elem_of_further, list_elem_of_here.
    + reflexivity.
Defined.

Example cleanup_stops_at_refusal :
  @cleanupOldDatabases (example_external ("", None)) "/data/GeoLite2-City-maxmind_*.mmdb"
     "GeoLite2-City-maxmind_20230301.mmdb"
     {| fs_files := fs_files example_fs;
        fs_denied := [ "/data/GeoLite2-City-maxmind_20230101.mmdb" ] |}
  = (Some "remove /data/GeoLite2-City-maxmind_20230101.mmdb: operation not permitted",
     {| fs_files := fs_files example_fs;
        fs_denied := [ "/data/GeoLite2-City-maxmind_20230101.mmdb" ] |}).
Proof. reflexivity. Qed.

(** ** The query facade *)

Section Facade.
Context {W : Type} `{Environment W}.

Lemma keep_named_from {A} (name : A -> string) (rows kept : list A) :
  fold_left (fun kept row => if bool_decide (name row ≠ "") then kept ++ [row] else kept)
            rows kept
  = kept ++ filter (fun row => name row ≠ "") rows.
Proof.
  revert kept. induction rows as [|row rows IH]; intros kept; simpl.
  - by rewrite app_nil_r.
  - rewrite IH, filter_cons.
    destruct (decide (name row ≠ "")) as [Hn|Hn].
    + rewrite bool_decide_eq_true_2 by done. by rewrite <- app_assoc.
    + by rewrite bool_decide_eq_false_2 by done.
Qed.

Lemma keep_named_filter {A} (name : A -> string) (rows : list A) :
  keep_named name rows = filter (fun row => name row ≠ "") rows.
Proof. unfold keep_named. by rewrite keep_named_from. Qed.

(** C8: whatever rows the store returns, [GetAllCountries] and
    [GetCitiesByCountry] return the rows with a non-empty name, unchanged
    and in the order of the store, and no others; the other rows are the
    ones left out. *)
Theorem facade_keeps_named_rows (w : W) (countryISOCode : string) :
  (forall rows, SqliteStore_GetAllCountries w = (rows, None) ->
     GetAllCountries w = (filter (fun c => CountryName c ≠ "") rows, None) /\
     (GetAllCountries w).1 `sublist_of` rows /\
     forall c, c ∈ (GetAllCountries w).1 <-> c ∈ rows /\ CountryName c ≠ "") /\
  (forall rows, SqliteStore_GetCitiesByCountry countryISOCode w = (rows, None) ->
     GetCitiesByCountry countryISOCode w = (filter (fun c => CityName c ≠ "") rows, None) /\
     (GetCitiesByCountry countryISOCode w).1 `sublist_of` rows /\
     forall c, c ∈ (GetCitiesByCountry countryISOCode w).1 <-> c ∈ rows /\ CityName c ≠ "").
Proof.
  split; intros rows Hrows.
  - unfold GetAllCountries. rewrite Hrows, keep_named_filter. simpl.
    split; [done|]. split; [apply sublist_filter|].
    intros c. rewrite list_elem_of_filter. tauto.
  - unfold GetCitiesByCountry. rewrite Hrows, keep_named_filter. simpl.
    split; [done|]. split; [apply sublist_filter|].
    intros c. rewrite list_elem_of_filter. tauto.
Qed.

End Facade.

Lemma facade_keeps_named_rows_witness :
  let env := scripted None None None in
  @GetAllCountries _ env []
  = ([ {| CountryISOCode := "DE"; CountryName := "Germany" |};
       {| CountryISOCode := "FR"; CountryName := "France" |} ], None) /\
  @GetCitiesByCountry _ env "DE" []
  = ([ {| GeoNameID := 2950159; CityName := "Berlin" |} ], None).
Proof.
  intros env.
  pose proof (@facade_keeps_named_rows _ env [] "DE") as [Hcountries Hcities].
  split.
  - exact (proj1 (Hcountries _ eq_refl)).
  - exact (proj1 (Hcities _ eq_refl)).
Defined.

(** ** The service: stopping and looking up *)

Section Lifecycle.
Context {W : Type} `{Environment W}.

Ltac run :=
  unfold Stop, Lookup, reload, openDB, Close_reader, close_stopCh, deref, alloc,
    defer, emitted, emit, call, get_gl, set_gl, panic, bind, ret in *;
  simpl in *.

Lemma Stop_closed (st : State W) :
  stopCh (gl st) = ChanClosed -> Stop st = (Panics close_of_closed_channel, st).
Proof. intros Hc. run. by rewrite Hc. Qed.

(** C2, as the code has it: the first [Stop] of a running service closes
    the stop channel and returns without panicking.  It returns the error
    of closing the handle if there is one, and the store is then not closed;
    otherwise it closes the store and returns what that gives.  A second
    [Stop] panics on closing the closed channel and does nothing else. *)
Theorem Stop_second_call_panics (st : State W) :
  stopCh (gl st) = ChanOpen ->
  (forall p, db (gl st) = Some p -> is_Some (heap st !! p)) ->
  exists st',
    Stop st = (Returns (Stop_error st), st') /\
    stopCh (gl st') = ChanClosed /\
    world st' = (Stop_store st).2 /\
    trace st' = trace st ++ Stop_events st /\
    Stop st' = (Panics close_of_closed_channel, st').
Proof.
  intros Hopen Hdb.
  assert (Hex : exists st', Stop st = (Returns (Stop_error st), st') /\
            stopCh (gl st') = ChanClosed /\ world st' = (Stop_store st).2 /\
            trace st' = trace st ++ Stop_events st).
  { unfold Stop_error, Stop_events, Stop_store, Stop_reader.
    run. rewrite Hopen. simpl.
    destruct (db (gl st)) as [p|] eqn:Hp; simpl.
    - destruct (Hdb p eq_refl) as [r Hr]. rewrite Hr. simpl.
      destruct (Reader_Close r (world st)) as [[e|] w]; simpl.
      { eexists. split; [done|]. simpl. by rewrite <- !app_assoc. }
      destruct (locationDB (gl st)); simpl.
      + destruct (SqliteStore_close w) as [[e'|] w']; simpl;
          (eexists; split; [done|]; simpl; by rewrite <- !app_assoc).
      + eexists. split; [done|]. simpl. by rewrite <- !app_assoc.
    - destruct (locationDB (gl st)); simpl.
      + destruct (SqliteStore_close (world st)) as [[e|] w']; simpl;
          (eexists; split; [done|]; simpl; by rewrite <- !app_assoc).
      + eexists. split; [done|]. simpl. done. }
  destruct Hex as (st' & Hstop & Hclosed & Hworld & Htrace).
  exists st'. repeat split; try done. by apply Stop_closed.
Qed.


End Lifecycle.

Lemma Stop_second_call_panics_witness :
  let env := scripted None None None in
  let failing := scripted None None (Some "munmap: invalid argument") in
  (exists st',
     @Stop _ env (running []) = (Returns None, st') /\
     stopCh (gl st') = ChanClosed /\
     world st' = [] /\
     trace st' = [EvCloseChan; EvClose 0; EvStoreClose] /\
     @Stop _ env st' = (Panics close_of_closed_channel, st')) /\
  (exists st',
     @Stop _ failing (running []) = (Returns (Some "munmap: invalid argument"), st') /\
     stopCh (gl st') = ChanClosed /\
     world st' = [] /\
     trace st' = [EvCloseChan; EvClose 0] /\
     @Stop _ failing st' = (Panics close_of_closed_channel, st')).
Proof.
  intros env failing. split.
  - apply (@Stop_second_call_panics _ env (running [])).
    + reflexivity.
    + intros p [= <-]. eexists. reflexivity.
  - apply (@Stop_second_call_panics _ failing (running [])).
    + reflexivity.
    + intros p [= <-]. eexists. reflexivity.
Defined.

(** C2 fails on the code: on a running service the first [Stop] returns
    and the second one panics. *)
Lemma Stop_twice_panics :
  let env := scripted None None None in
  let st1 := (@Stop _ env (running [])).2 in
  (@Stop _ env (running [])).1 = Returns None /\
  (@Stop _ env st1).1 = Panics close_of_closed_channel /\
  ~ (exists err, (@Stop _ env st1).1 = Returns err).
Proof.
  intros env st1. split; [reflexivity|]. split; [reflexivity|].
  intros [err Herr]. discriminate Herr.
Qed.



(** ** The reloader *)

Section Reloading.
Context {W : Type} `{Environment W}.

Ltac run :=
  unfold reloader_tick, reload, openDB, Close_reader, deref, alloc,
    defer, emitted, emit, call, get_gl, set_gl, panic, bind, ret in *;
  simpl in *.

(** Case analysis on the next call whose answer decides the run. *)
Ltac case_call :=
  match goal with
  | |- context [match ?x with _ => _ end] =>
      lazymatch x with
      | context [match _ with _ => _ end] => fail
      | _ => destruct x eqn:?
      end
  end.

(** C4, as the code has it: in every tick the two fingerprints and the
    delay come first, outside the locked region.  A tick that does not find
    the file changed and stable takes no lock.  A tick that does takes the
    writer lock after the second fingerprint and holds it for closing the
    superseded reader, for opening the new one ([os.Stat] and
    [maxminddb.Open] of [openDB]) and for replacing the reference and the
    fingerprint, each step as far as the one before succeeded; then it
    releases the lock. *)
Theorem reloader_tick_locked_region (st : State W) :
  let path := mmdbPath (gl st) in
  let sampled := [EvStoreReload; EvSHA256 path; EvSleep 50; EvSHA256 path] in
  exists evs,
    trace (reloader_tick st).2 = trace st ++ evs /\
    Forall (fun e => is_swap_step e = true) (under_lock false evs) /\
    Forall (fun e => is_fingerprint e = false) (under_lock false evs) /\
    (changed st = false -> evs = [EvStoreReload; EvSHA256 path]) /\
    (changed st = true -> stable st = false -> evs = sampled) /\
    (changed st = true -> stable st = true ->
     forall p r, db (gl st) = Some p -> heap st !! p = Some r ->
       evs = sampled ++ EvLock :: locked_steps path p r (sample2 st).2 ++ [EvUnlock] /\
       under_lock false evs = locked_steps path p r (sample2 st).2).
Proof.
  unfold changed, stable, locked_steps, sample2, sample1.
  run. unfold bytes_Equal.
  destruct (SqliteStore_reload (world st)) as [e0 w1]; simpl.
  destruct (calculateFileSHA256 (mmdbPath (gl st)) w1) as [[sum1 [e1|]] w2]; simpl.
  { rewrite <- ?app_assoc. eexists. split; [reflexivity|]. simpl.
    repeat split; try done; constructor. }
  case_bool_decide as Hsum1; simpl.
  { rewrite <- ?app_assoc. eexists. split; [reflexivity|]. simpl.
    repeat split; try done; constructor. }
  destruct (calculateFileSHA256 (mmdbPath (gl st)) (time_Sleep 50 w2))
    as [[sum2 [e2|]] w3]; simpl.
  { rewrite <- ?app_assoc. eexists. split; [reflexivity|]. simpl.
    repeat split; try done; constructor. }
  case_bool_decide as Hsum2; simpl; cycle 1.
  { rewrite <- ?app_assoc. eexists. split; [reflexivity|]. simpl.
    repeat split; try done; constructor. }
  destruct (db (gl st)) as [p|] eqn:Hp; simpl; cycle 1.
  { rewrite <- ?app_assoc. eexists. split; [reflexivity|]. simpl.
    repeat split; try done; constructor. }
  destruct (heap st !! p) as [r|] eqn:Hr; simpl; cycle 1.
  { rewrite <- ?app_assoc. eexists. split; [reflexivity|]. simpl.
    repeat split; try done; try constructor;
      match goal with
      | Hp0 : Some _ = Some ?q, Hr0 : heap st !! ?q = Some _ |- _ =>
          injection Hp0 as <-; rewrite Hr in Hr0; done
      end. }
  assert (Hsame : forall p0 r0, Some p = Some p0 -> heap st !! p0 = Some r0 ->
            p0 = p /\ r0 = r).
  { intros p0 r0 Hp0 Hr0. injection Hp0 as <-. rewrite Hr in Hr0.
    by injection Hr0 as <-. }
  destruct (Reader_Close r w3) as [[e|] w4] eqn:Hclose; simpl.
  { rewrite <- ?app_assoc. eexists. split; [reflexivity|]. simpl.
    repeat split; try done; try (repeat constructor; done);
      match goal with
      | Hp0 : Some _ = Some ?q, Hr0 : heap st !! ?q = Some _ |- _ =>
          destruct (Hsame _ _ Hp0 Hr0) as [-> ->]
      end;
      by rewrite Hclose. }
  destruct (os_Stat (mmdbPath (gl st)) w4) as [[e|] w5] eqn:Hstat; simpl.
  { destruct (os_IsNotExist e); simpl; rewrite <- ?app_assoc;
      (eexists; split; [reflexivity|]; simpl);
      (repeat split; try done; try (repeat constructor; done));
      match goal with
      | Hp0 : Some _ = Some ?q, Hr0 : heap st !! ?q = Some _ |- _ =>
          destruct (Hsame _ _ Hp0 Hr0) as [-> ->]
      end;
      rewrite Hclose; simpl; by rewrite Hstat. }
  destruct (maxminddb_Open (mmdbPath (gl st)) w5) as [[e|] w6] eqn:Hopen; simpl.
  { rewrite <- ?app_assoc. eexists. split; [reflexivity|]. simpl.
    repeat split; try done; try (repeat constructor; done);
      match goal with
      | Hp0 : Some _ = Some ?q, Hr0 : heap st !! ?q = Some _ |- _ =>
          destruct (Hsame _ _ Hp0 Hr0) as [-> ->]
      end;
      rewrite Hclose; simpl; rewrite Hstat; simpl; by rewrite Hopen. }
  rewrite <- ?app_assoc. eexists. split; [reflexivity|]. simpl.
  repeat split; try done; try (repeat constructor; done);
    match goal with
      | Hp0 : Some _ = Some ?q, Hr0 : heap st !! ?q = Some _ |- _ =>
          destruct (Hsame _ _ Hp0 Hr0) as [-> ->]
      end;
    rewrite Hclose; simpl; rewrite Hstat; simpl; by rewrite Hopen.
Qed.

(** C1 on the code: when opening the new reader fails after the old one
    was closed, [reload] returns the error and leaves the reference and the
    fingerprint as they were, so the service keeps the reader that it has
    just released. *)
Theorem reload_open_failure_keeps_released_handle
    (st : State W) (p : ptr) (r : Reader) (newSha256sum : bytes) :
  db (gl st) = Some p -> heap st !! p = Some r ->
  (Reader_Close r (world st)).1 = None ->
  reopens (mmdbPath (gl st)) r (world st) = false ->
  let st' := (reload newSha256sum st).2 in
  (exists e, (reload newSha256sum st).1 = Returns (Some e)) /\
  db (gl st') = Some p /\
  sha256sum (gl st') = sha256sum (gl st) /\
  heap st' !! p = Some {| rd_path := rd_path r; rd_closed := true |}.
Proof.
  intros Hp Hr Hclose Hre.
  assert (Hlen : p < length (heap st)) by by eapply lookup_lt_Some.
  unfold reopens in Hre. run. rewrite Hp. simpl. rewrite Hr. simpl.
  destruct (Reader_Close r (world st)) as [c w1]. simpl in *. subst c. simpl in *.
  destruct (os_Stat (mmdbPath (gl st)) w1) as [[e|] w2]; simpl in *.
  - destruct (os_IsNotExist e); simpl;
      (split; [eauto|]; split; [done|]; split; [done|];
       by apply list_lookup_insert_eq).
  - destruct (maxminddb_Open (mmdbPath (gl st)) w2) as [[e|] w3]; simpl in *; [|done].
    split; [eauto|]. split; [done|]. split; [done|].
    by apply list_lookup_insert_eq.
Qed.

(** C5, as the code has it: in a tick the handle is replaced if and only
    if the first fingerprint is computed and differs from the baseline, the
    second is computed and equals the first, and closing the old reader
    and opening the new one succeed; the new fingerprint is then the
    baseline.  With an unchanged first fingerprint nothing is replaced and
    the hash is the last call of the tick; with two differing samples the
    reference, the baseline and the readers are left untouched. *)
Theorem reloader_tick_replaces_iff (st : State W) :
  let st' := (reloader_tick st).2 in
  (replaced st st' <-> changed st && stable st && reopened st = true) /\
  (changed st && stable st && reopened st = true ->
     db (gl st') = Some (length (heap st)) /\
     sha256sum (gl st') = (sample2 st).1.1) /\
  ((sample1 st).1.2 = None -> (sample1 st).1.1 = sha256sum (gl st) ->
     gl st' = gl st /\ heap st' = heap st /\
     trace st' = trace st ++ [EvStoreReload; EvSHA256 (mmdbPath (gl st))]) /\
  (changed st = true -> stable st = false ->
     gl st' = gl st /\ heap st' = heap st).
Proof.
  unfold replaced, changed, stable, reopened, reopens, sample2, sample1.
  run. unfold bytes_Equal.
  destruct (SqliteStore_reload (world st)) as [e0 w1]; simpl.
  destruct (calculateFileSHA256 (mmdbPath (gl st)) w1) as [[sum1 [e1|]] w2]; simpl.
  { repeat split; try done; intros; simplify_eq/=. }
  case_bool_decide as Hsum1; simpl.
  { subst sum1. repeat split; try done; intros; simplify_eq/=.
    by rewrite <- app_assoc. }
  destruct (calculateFileSHA256 (mmdbPath (gl st)) (time_Sleep 50 w2))
    as [[sum2 [e2|]] w3]; simpl.
  { repeat split; try done; intros; simplify_eq/=. }
  case_bool_decide as Hsum2; simpl; cycle 1.
  { repeat split; try done; intros; simplify_eq/=. }
  subst sum2.
  destruct (db (gl st)) as [p|] eqn:Hp; simpl; cycle 1.
  { repeat split; try done; intros; simplify_eq/=. }
  destruct (heap st !! p) as [r|] eqn:Hr; simpl; cycle 1.
  { repeat split; try done; intros; simplify_eq/=. }
  assert (Hlen : p < length (heap st)) by by eapply lookup_lt_Some.
  destruct (Reader_Close r w3) as [[e|] w4]; simpl.
  { rewrite Hp. repeat split; try done; intros; simplify_eq/=. }
  destruct (os_Stat (mmdbPath (gl st)) w4) as [[e|] w5]; simpl.
  { destruct (os_IsNotExist e); simpl; rewrite Hp;
      repeat split; try done; intros; simplify_eq/=. }
  destruct (maxminddb_Open (mmdbPath (gl st)) w5) as [[e|] w6]; simpl.
  { rewrite Hp. repeat split; try done; intros; simplify_eq/=. }
  rewrite length_insert.
  repeat split; try done; intros; simplify_eq/=.
  intros [= Heq]. lia.
Qed.

End Reloading.

Lemma reload_open_failure_keeps_released_handle_witness :
  let env := scripted None (Some "invalid MaxMind DB file") None in
  let st := running [] in
  let st' := (@reload _ env sum_new st).2 in
  (exists e, (@reload _ env sum_new st).1 = Returns (Some e)) /\
  db (gl st') = Some 0 /\
  sha256sum (gl st') = sum_old /\
  heap st' !! 0 = Some {| rd_path := "/data/GeoLite2-City-maxmind_20240101.mmdb";
                          rd_closed := true |}.
Proof.
  intros env st.
  exact (@reload_open_failure_keeps_released_handle _ env st 0
           {| rd_path := "/data/GeoLite2-City-maxmind_20240101.mmdb"; rd_closed := false |}
           sum_new eq_refl eq_refl eq_refl eq_refl).
Defined.

(** A tick that sees a new, stable file which cannot be opened: the
    lookups that follow fail on the released reader. *)
Example tick_open_failure_breaks_lookups :
  let env := scripted None (Some "invalid MaxMind DB file") None in
  let st := running [(sum_new, None); (sum_new, None)] in
  (@Lookup _ env [] st).1 = Returns (Some berlin, None) /\
  (@Lookup _ env [] (@reloader_tick _ env st).2).1
    = Returns (None, Some "cannot call Lookup on a closed database").
Proof. split; reflexivity. Qed.

(** C4 fails on the code: in a tick that swaps, [os.Stat] and
    [maxminddb.Open] of the new file run between [Lock] and [Unlock]. *)
Lemma reloader_tick_opens_under_lock :
  let env := scripted None None None in
  let st := running [(sum_new, None); (sum_new, None)] in
  let path := "/data/GeoLite2-City-maxmind_20240101.mmdb" in
  under_lock false (trace (@reloader_tick _ env st).2)
    = [EvClose 0; EvStat path; EvOpen path; EvSwap] /\
  ~ Forall (fun e => is_file_io e = false)
      (under_lock false (trace (@reloader_tick _ env st).2)).
Proof.
  intros env st path. split; [reflexivity|].
  intros Hall. apply Forall_cons in Hall as [_ Hall].
  apply Forall_cons in Hall as [Hstat _]. discriminate Hstat.
Qed.

(** C5 fails on the code: both fingerprints are computed, the first
    differs from the baseline and the second equals the first, yet the
    handle is not replaced, because the new file cannot be opened. *)
Lemma reloader_tick_stable_not_replaced :
  let env := scripted None (Some "invalid MaxMind DB file") None in
  let st := running [(sum_new, None); (sum_new, None)] in
  @changed _ env st = true /\ @stable _ env st = true /\
  ~ replaced st (@reloader_tick _ env st).2.
Proof.
  intros env st. split; [reflexivity|]. split; [reflexivity|].
  intros Hrep. apply Hrep. reflexivity.
Qed.

Lemma reloader_tick_replaces_iff_witness :
  let env := scripted None None None in
  let swap := running [(sum_new, None); (sum_new, None)] in
  let same := running [(sum_old, None)] in
  let busy := running [(sum_mid, None); (sum_new, None)] in
  (replaced swap (@reloader_tick _ env swap).2 /\
   db (gl (@reloader_tick _ env swap).2) = Some 1 /\
   sha256sum (gl (@reloader_tick _ env swap).2) = sum_new) /\
  (gl (@reloader_tick _ env same).2 = gl same /\
   heap (@reloader_tick _ env same).2 = heap same /\
   trace (@reloader_tick _ env same).2
     = [EvStoreReload; EvSHA256 "/data/GeoLite2-City-maxmind_20240101.mmdb"]) /\
  (gl (@reloader_tick _ env busy).2 = gl busy /\
   heap (@reloader_tick _ env busy).2 = heap busy).
Proof.
  intros env swap same busy.
  destruct (@reloader_tick_replaces_iff _ env swap) as (Hiff & Hnew & _ & _).
  destruct (@reloader_tick_replaces_iff _ env same) as (_ & _ & Hsame & _).
  destruct (@reloader_tick_replaces_iff _ env busy) as (_ & _ & _ & Hbusy).
  split; [|split].
  - split; [exact (proj2 Hiff eq_refl)|exact (Hnew eq_refl)].
  - exact (Hsame eq_refl eq_refl).
  - exact (Hbusy eq_refl eq_refl).
Defined.

Lemma reloader_tick_locked_region_witness :
  let env := scripted None None None in
  let path := "/data/GeoLite2-City-maxmind_20240101.mmdb" in
  let swap := running [(sum_new, None); (sum_new, None)] in
  let same := running [(sum_old, None)] in
  let busy := running [(sum_mid, None); (sum_new, None)] in
  trace (@reloader_tick _ env swap).2
    = [EvStoreReload; EvSHA256 path; EvSleep 50; EvSHA256 path;
       EvLock; EvClose 0; EvStat path; EvOpen path; EvSwap; EvUnlock] /\
  trace (@reloader_tick _ env same).2 = [EvStoreReload; EvSHA256 path] /\
  trace (@reloader_tick _ env busy).2
    = [EvStoreReload; EvSHA256 path; EvSleep 50; EvSHA256 path].
Proof.
  intros env path swap same busy.
  destruct (@reloader_tick_locked_region _ env swap)
    as (evs1 & Htr1 & _ & _ & _ & _ & Hswap).
  destruct (@reloader_tick_locked_region _ env same)
    as (evs2 & Htr2 & _ & _ & Hsame & _ & _).
  destruct (@reloader_tick_locked_region _ env busy)
    as (evs3 & Htr3 & _ & _ & _ & Hbusy & _).
  split; [|split].
  - rewrite Htr1.
    exact (proj1 (Hswap eq_refl eq_refl 0 {| rd_path := path; rd_closed := false |}
                    eq_refl eq_refl)).
  - rewrite Htr2. exact (Hsame eq_refl).
  - rewrite Htr3. exact (Hbusy eq_refl eq_refl).
Defined.

(** ** The loop of the reloader *)

Section Loop.
Context {W : Type} `{Environment W}.

(** Once the stop channel is closed the loop leaves without a tick. *)
Lemma reloader_stopped (ticks : nat) (st : State W) :
  stopCh (gl st) = ChanClosed -> reloader ticks st = (Returns tt, st).
Proof.
  intros Hc. destruct ticks as [|n]; [done|].
  simpl. unfold bind, get_gl, ret. by rewrite Hc.
Qed.

(** While it is open, each firing of the timer runs one tick. *)
Lemma reloader_running (n : nat) (st : State W) :
  stopCh (gl st) = ChanOpen ->
  reloader (S n) st = bind reloader_tick (fun _ => reloader n) st.
Proof. intros Ho. simpl. unfold bind at 1, get_gl. by rewrite Ho. Qed.

End Loop.

(** After [Stop] the reloader does nothing more. *)
Example reloader_after_Stop :
  let env := scripted None None None in
  let st1 := (@Stop _ env (running [(sum_new, None); (sum_new, None)])).2 in
  @reloader _ env 3 st1 = (Returns tt, st1).
Proof. reflexivity. Qed.

(** ** More on the cleanup and the selection of files *)

Section CleanupMore.
Context `{External}.

Lemma os_Remove_result db fs e fs' :
  os_Remove db fs = (e, fs') ->
  fs_denied fs' = fs_denied fs /\
  (forall p, p ∈ fs_files fs' -> p ∈ fs_files fs) /\
  (forall p, p ∈ fs_files fs -> p ≠ db -> p ∈ fs_files fs') /\
  (e = None -> db ∉ fs_files fs').
Proof.
  unfold os_Remove. intros Hrm.
  repeat case_bool_decide; simplify_eq/=; repeat split; try done.
  - intros p Hp%list_elem_of_filter. tauto.
  - intros p Hp Hne. by apply list_elem_of_filter.
  - intros _ Hin%list_elem_of_filter. tauto.
Qed.

(** Whatever the outcome, the loop creates no file, keeps the list of
    refused paths, and keeps every file that is not one of its victims. *)
Lemma cleanup_loop_frame l cur fs :
  fs_denied (cleanup_loop l cur fs).2 = fs_denied fs /\
  (forall p, p ∈ fs_files (cleanup_loop l cur fs).2 -> p ∈ fs_files fs) /\
  (forall p, p ∈ fs_files fs -> p ∉ l \/ GoStrings.Base p = cur ->
     p ∈ fs_files (cleanup_loop l cur fs).2).
Proof.
  revert fs. induction l as [|db l IH]; intros fs; [done|].
  simpl. destruct (String.eqb_spec (GoStrings.Base db) cur) as [Heq|Hne].
  - destruct (IH fs) as (Hd & Hsub & Hkeep). split; [done|]. split; [done|].
    intros p Hp [Hnot|Hb]; apply Hkeep; auto.
    left. by apply not_elem_of_cons in Hnot as [_ ?].
  - destruct (os_Remove db fs) as [[e|] fs1] eqn:Hrm;
      apply os_Remove_result in Hrm as (Hd1 & Hsub1 & Hkeep1 & _); simpl.
    + split; [done|]. split; [done|].
      intros p Hp [Hnot|Hb]; apply Hkeep1; try done.
      * by apply not_elem_of_cons in Hnot as [? _].
      * intros ->. done.
    + destruct (IH fs1) as (Hd & Hsub & Hkeep). split; [congruence|]. split; [auto|].
      intros p Hp Hor. apply Hkeep.
      * apply Hkeep1; [done|]. destruct Hor as [Hnot|Hb].
        -- by apply not_elem_of_cons in Hnot as [? _].
        -- intros ->. done.
      * destruct Hor as [Hnot|Hb]; [left|by right].
        by apply not_elem_of_cons in Hnot as [_ ?].
Qed.

(** When the loop ends without error, each of its victims is gone. *)
Lemma cleanup_loop_done l cur fs fs' :
  cleanup_loop l cur fs = (None, fs') ->
  forall p, p ∈ l -> GoStrings.Base p ≠ cur -> p ∉ fs_files fs'.
Proof.
  revert fs. induction l as [|db l IH]; intros fs Hrun p Hp Hb.
  { by apply elem_of_nil in Hp. }
  simpl in Hrun. destruct (String.eqb_spec (GoStrings.Base db) cur) as [Heq|Hne].
  - apply elem_of_cons in Hp as [->|Hp]; [done|]. by eapply IH.
  - destruct (os_Remove db fs) as [[e|] fs1] eqn:Hrm; [done|].
    apply os_Remove_result in Hrm as (_ & _ & _ & Hgone).
    apply elem_of_cons in Hp as [->|Hp]; [|by eapply IH].
    intros Hin. apply (Hgone eq_refl).
    destruct (cleanup_loop_frame l cur fs1) as (_ & Hsub & _).
    apply Hsub. by rewrite Hrun.
Qed.

Lemma cleanupOldDatabases_frame pattern cur fs :
  fs_denied (cleanupOldDatabases pattern cur fs).2 = fs_denied fs /\
  (forall p, p ∈ fs_files (cleanupOldDatabases pattern cur fs).2 -> p ∈ fs_files fs) /\
  (forall p, p ∈ fs_files fs -> Match pattern p = false \/ GoStrings.Base p = cur ->
     p ∈ fs_files (cleanupOldDatabases pattern cur fs).2).
Proof.
  unfold cleanupOldDatabases, getExistingDatabases.
  destruct (cleanup_loop_frame (Glob pattern fs) cur fs) as (Hd & Hsub & Hkeep).
  split; [done|]. split; [done|].
  intros p Hp [Hm|Hb]; apply Hkeep; auto.
  left. intros [Hm' _]%Glob_elem. rewrite Hm in Hm'. done.
Qed.

Lemma cleanupOldDatabases_done pattern cur fs fs' :
  cleanupOldDatabases pattern cur fs = (None, fs') ->
  forall p, p ∈ fs_files fs' -> Match pattern p -> GoStrings.Base p = cur.
Proof.
  intros Hrun p Hp Hm.
  destruct (decide (GoStrings.Base p = cur)) as [|Hne]; [done|]. exfalso.
  destruct (cleanupOldDatabases_frame pattern cur fs) as (_ & Hsub & _).
  rewrite Hrun in Hsub. simpl in Hsub.
  eapply (cleanup_loop_done _ _ _ _ Hrun p); [|done|done].
  apply Glob_elem. auto.
Qed.

(** X1: whether it succeeds or stops at an error, the cleanup creates no
    file, leaves the refused paths as they were, and removes no file that
    does not match the pattern or that has the current base name. *)
Theorem cleanupOldDatabases_spares_other_files pattern currentFile fs :
  let fs' := (cleanupOldDatabases pattern currentFile fs).2 in
  fs_denied fs' = fs_denied fs /\
  (forall p, p ∈ fs_files fs' -> p ∈ fs_files fs) /\
  (forall p, p ∈ fs_files fs ->
     Match pattern p = false \/ GoStrings.Base p = currentFile ->
     p ∈ fs_files fs').
Proof. apply cleanupOldDatabases_frame. Qed.

(** X2: a cleanup that succeeded has nothing left to do: run again on its
    result, with the same arguments, it succeeds and changes nothing. *)
Theorem cleanupOldDatabases_twice pattern currentFile fs fs' :
  cleanupOldDatabases pattern currentFile fs = (None, fs') ->
  cleanupOldDatabases pattern currentFile fs' = (None, fs').
Proof.
  intros Hrun. unfold cleanupOldDatabases, getExistingDatabases.
  rewrite cleanup_loop_victims.
  assert (Hnone : filter (fun p => GoStrings.Base p ≠ currentFile) (Glob pattern fs') = []).
  { apply elem_of_nil_inv. intros p [Hb [Hm Hin]%Glob_elem]%list_elem_of_filter.
    apply Hb. by eapply cleanupOldDatabases_done. }
  by rewrite Hnone.
Qed.

(** X3: the file chosen by a local selection is still the one chosen
    after the cleanup that keeps it. *)
Theorem selection_survives_cleanup url pattern autoUpdate fs fs' current :
  autoUpdate = false \/ (getFilenameFromURL url).2 ≠ None ->
  getDatabaseFilename url pattern autoUpdate fs = Returns (current, None) ->
  cleanupOldDatabases pattern current fs = (None, fs') ->
  getDatabaseFilename url pattern autoUpdate fs' = Returns (current, None).
Proof.
  intros Hlocal Hsel Hrun.
  rewrite getDatabaseFilename_scan in Hsel |- * by done.
  destruct (last (Glob pattern fs)) as [p|] eqn:Hlast; [|done].
  injection Hsel as Hb.
  assert (Hp : p ∈ Glob pattern fs) by by apply last_Some_elem_of.
  destruct (cleanupOldDatabases_frame pattern current fs) as (_ & Hsub & Hkeep).
  rewrite Hrun in Hsub, Hkeep. simpl in *.
  assert (Hp' : p ∈ Glob pattern fs').
  { apply Glob_elem in Hp as [Hm Hin]. apply Glob_elem. auto. }
  destruct (last (Glob pattern fs')) as [q|] eqn:Hlast'.
  - assert (Hq : q ∈ Glob pattern fs') by by apply last_Some_elem_of.
    assert (Hqp : q = p).
    { apply (anti_symm String.le).
      - eapply sorted_last_greatest; [apply Glob_sorted|exact Hlast|].
        apply Glob_elem in Hq as [Hm Hin]. apply Glob_elem. auto.
      - eapply sorted_last_greatest; [apply Glob_sorted|exact Hlast'|done]. }
    by rewrite Hqp, Hb.
  - apply last_None in Hlast'. rewrite Hlast' in Hp'. by apply elem_of_nil in Hp'.
Qed.

(** X4: with remote discovery requested and failing, the selector answers
    as if discovery had not been requested. *)
Theorem getDatabaseFilename_fails_open url pattern fs :
  (getFilenameFromURL url).2 ≠ None ->
  getDatabaseFilename url pattern true fs = getDatabaseFilename url pattern false fs.
Proof. intros Hr. rewrite !getDatabaseFilename_scan; auto. Qed.

End CleanupMore.

Lemma cleanupOldDatabases_spares_other_files_witness :
  let ext := example_external ("", None) in
  let fs' := (@cleanupOldDatabases ext "/data/GeoLite2-City-maxmind_*.mmdb"
                "GeoLite2-City-maxmind_20230301.mmdb" guarded_fs).2 in
  "/data/geonames.db" ∈ fs_files fs' /\
  "/data/GeoLite2-City-maxmind_20230301.mmdb" ∈ fs_files fs' /\
  "/data/GeoLite2-City-maxmind_20230201.mmdb" ∈ fs_files guarded_fs.
Proof.
  intros ext fs'.
  destruct (@cleanupOldDatabases_spares_other_files ext
              "/data/GeoLite2-City-maxmind_*.mmdb"
              "GeoLite2-City-maxmind_20230301.mmdb" guarded_fs) as (_ & Hsub & Hkeep).
  split; [|split].
  - apply Hkeep; [|left; reflexivity].
    simpl. do 2 apply list_elem_of_further. apply list_elem_of_here.
  - apply Hkeep; [|right; reflexivity].
    simpl. apply list_elem_of_further, list_elem_of_here.
  - apply Hsub. apply list_elem_of_here.
Defined.

Lemma cleanupOldDatabases_twice_witness :
  let ext := example_external ("", None) in
  let fs' := {| fs_files := [ "/data/GeoLite2-City-maxmind_20230301.mmdb"; "/data/geonames.db" ];
                fs_denied := [] |} in
  @cleanupOldDatabases ext "/data/GeoLite2-City-maxmind_*.mmdb"
    "GeoLite2-City-maxmind_20230301.mmdb" fs' = (None, fs').
Proof.
  intros ext fs'.
  exact (@cleanupOldDatabases_twice ext "/data/GeoLite2-City-maxmind_*.mmdb"
           "GeoLite2-City-maxmind_20230301.mmdb" example_fs fs' eq_refl).
Defined.

Lemma selection_survives_cleanup_witness :
  let ext := example_external ("", None) in
  let fs' := {| fs_files := [ "/data/GeoLite2-City-maxmind_20230301.mmdb"; "/data/geonames.db" ];
                fs_denied := [] |} in
  @getDatabaseFilename ext "https://pkgs.example/geolite2-city"
    "/data/GeoLite2-City-maxmind_*.mmdb" false fs'
  = Returns ("GeoLite2-City-maxmind_20230301.mmdb", None).
Proof.
  intros ext fs'.
  exact (@selection_survives_cleanup ext "https://pkgs.example/geolite2-city"
           "/data/GeoLite2-City-maxmind_*.mmdb" false example_fs fs'
           "GeoLite2-City-maxmind_20230301.mmdb" (or_introl eq_refl) eq_refl eq_refl).
Defined.

Lemma getDatabaseFilename_fails_open_witness :
  let ext := example_external ("", Some "no route to host") in
  @getDatabaseFilename ext "https://pkgs.example/geolite2-city"
    "/data/GeoLite2-City-maxmind_*.mmdb" true example_fs
  = @getDatabaseFilename ext "https://pkgs.example/geolite2-city"
      "/data/GeoLite2-City-maxmind_*.mmdb" false example_fs.
Proof.
  intros ext.
  apply (@getDatabaseFilename_fails_open ext). discriminate.
Defined.

(** ** The names returned by the selector *)

Section Names.
Context `{External}.

Lemma drop_slashes_head_not_slash cs c l :
  GoStrings.drop_slashes cs = c :: l -> GoStrings.is_slash c = false.
Proof.
  induction cs as [|d cs IH]; [done|]. simpl.
  destruct (GoStrings.is_slash d) eqn:Hd; [done|]. by intros [= -> _].
Qed.

Lemma until_slash_no_slash cs c :
  c ∈ GoStrings.until_slash cs -> GoStrings.is_slash c = false.
Proof.
  induction cs as [|d cs IH]; simpl; [by intros ?%elem_of_nil|].
  destruct (GoStrings.is_slash d) eqn:Hd; [by intros ?%elem_of_nil|].
  intros [->|Hc]%elem_of_cons; auto.
Qed.

Lemma has_char_list c cs :
  has_char c (string_of_list_ascii cs) = true <-> c ∈ cs.
Proof. by rewrite has_char_elem_of, list_ascii_of_string_of_list_ascii. Qed.

(** [path.Base] never returns the empty name, and a name it returns holds
    a slash only when it is the root. *)
Lemma Base_plain p :
  GoStrings.Base p ≠ "" /\
  (GoStrings.Base p = "/" \/ has_char "/" (GoStrings.Base p) = false).
Proof.
  unfold GoStrings.Base. destruct (String.eqb p ""); [split; [done|by right]|].
  destruct (GoStrings.drop_slashes (rev (list_ascii_of_string p))) as [|c l] eqn:Hd.
  { split; [done|by left]. }
  pose proof (drop_slashes_head_not_slash _ _ _ Hd) as Hc.
  split.
  - simpl. rewrite Hc. simpl. intros Hnil.
    apply (f_equal list_ascii_of_string) in Hnil.
    rewrite list_ascii_of_string_of_list_ascii in Hnil. simpl in Hnil.
    by apply app_eq_nil in Hnil as [_ ?].
  - right. apply not_true_is_false. intros Hin%has_char_list.
    rewrite list_elem_of_In, <- in_rev, <- list_elem_of_In in Hin.
    apply until_slash_no_slash in Hin. done.
Qed.

(** X5: a file name returned by the selector without error is never
    empty and holds no path separator, unless it is the root itself. *)
Theorem getDatabaseFilename_plain_name url pattern autoUpdate fs name :
  getDatabaseFilename url pattern autoUpdate fs = Returns (name, None) ->
  name ≠ "" /\ (name = "/" \/ has_char "/" name = false).
Proof.
  unfold getDatabaseFilename, GoStrings.at_index. intros Hres.
  repeat case_match; simplify_eq/=; apply Base_plain.
Qed.

End Names.

Lemma getDatabaseFilename_plain_name_witness :
  "GeoLite2-City-maxmind_20240105.mmdb" ≠ "" /\
  ("GeoLite2-City-maxmind_20240105.mmdb" = "/" \/
   has_char "/" "GeoLite2-City-maxmind_20240105.mmdb" = false).
Proof.
  exact (@getDatabaseFilename_plain_name
           (example_external ("GeoLite2-City_20240105.tar.gz", None))
           "https://pkgs.example/geolite2-city" "/data/GeoLite2-City-maxmind_*.mmdb"
           true example_fs "GeoLite2-City-maxmind_20240105.mmdb" eq_refl).
Defined.

(** ** The two databases at startup *)

Section TwoDatabases.
Context `{External}.
Variable tarURL zipURL : string.



Lemma cleanup_case_mmdb dataDir mmdbFile geonamesdbFile fs :
  cleanup_case dataDir mmdbFile geonamesdbFile mmdbFile fs
  = cleanupOldDatabases (GoPath.Join [dataDir; mmdbPattern]) mmdbFile fs.
Proof. unfold cleanup_case. by rewrite String.eqb_refl. Qed.

Lemma cleanup_case_geonames dataDir mmdbFile geonamesdbFile fs :
  mmdbFile ≠ geonamesdbFile ->
  cleanup_case dataDir mmdbFile geonamesdbFile geonamesdbFile fs
  = cleanupOldDatabases (GoPath.Join [dataDir; geonamesdbPattern]) geonamesdbFile fs.
Proof.
  intros Hne. unfold cleanup_case.
  destruct (String.eqb_spec geonamesdbFile mmdbFile) as [Heq|_]; [congruence|].
  by rewrite String.eqb_refl.
Qed.

(** X7: after a cleanup of both databases that succeeded, for two distinct
    current names, every file left that matches the pattern of a database
    has the current name of that database, and no file was created. *)
Theorem cleanupMaxMindDatabases_leaves_current dataDir mmdbFile geonamesdbFile fs fs' :
  mmdbFile ≠ geonamesdbFile ->
  cleanupMaxMindDatabases dataDir mmdbFile geonamesdbFile fs = (None, fs') ->
  (forall p, p ∈ fs_files fs' -> p ∈ fs_files fs) /\
  (forall p, p ∈ fs_files fs' -> Match (GoPath.Join [dataDir; mmdbPattern]) p ->
     GoStrings.Base p = mmdbFile) /\
  (forall p, p ∈ fs_files fs' -> Match (GoPath.Join [dataDir; geonamesdbPattern]) p ->
     GoStrings.Base p = geonamesdbFile).
Proof.
  intros Hne. unfold cleanupMaxMindDatabases. simpl.
  rewrite cleanup_case_mmdb.
  destruct (cleanupOldDatabases (GoPath.Join [dataDir; mmdbPattern]) mmdbFile fs)
    as [[e|] fs1] eqn:Hfirst; [done|].
  rewrite cleanup_case_geonames by done.
  destruct (cleanupOldDatabases (GoPath.Join [dataDir; geonamesdbPattern]) geonamesdbFile fs1)
    as [[e|] fs2] eqn:Hsecond; [done|].
  intros [= <-].
  destruct (cleanupOldDatabases_frame (GoPath.Join [dataDir; mmdbPattern]) mmdbFile fs)
    as (_ & Hsub1 & _).
  destruct (cleanupOldDatabases_frame (GoPath.Join [dataDir; geonamesdbPattern])
              geonamesdbFile fs1) as (_ & Hsub2 & _).
  rewrite Hfirst in Hsub1. rewrite Hsecond in Hsub2. simpl in *.
  split; [auto|]. split.
  - intros p Hp Hm. eapply cleanupOldDatabases_done; [exact Hfirst|auto|done].
  - intros p Hp Hm. eapply cleanupOldDatabases_done; [exact Hsecond|auto|done].
Qed.

(** X8: an error of the first cleanup ends [cleanupMaxMindDatabases]: it
    is returned, and the files of the geonames database are not looked at,
    so every file that does not match the pattern of the MaxMind database
    is still there. *)
Theorem cleanupMaxMindDatabases_first_error dataDir mmdbFile geonamesdbFile fs e fs1 :
  cleanupOldDatabases (GoPath.Join [dataDir; mmdbPattern]) mmdbFile fs = (Some e, fs1) ->
  cleanupMaxMindDatabases dataDir mmdbFile geonamesdbFile fs = (Some e, fs1) /\
  forall p, p ∈ fs_files fs -> Match (GoPath.Join [dataDir; mmdbPattern]) p = false ->
    p ∈ fs_files fs1.
Proof.
  intros Hfirst. unfold cleanupMaxMindDatabases. simpl.
  rewrite cleanup_case_mmdb, Hfirst. split; [done|].
  intros p Hp Hm.
  destruct (cleanupOldDatabases_frame (GoPath.Join [dataDir; mmdbPattern]) mmdbFile fs)
    as (_ & _ & Hkeep).
  rewrite Hfirst in Hkeep. apply Hkeep; auto.
Qed.

(** X9: the [switch] takes its first matching case: when both current
    names are equal the pattern of the MaxMind database is cleaned twice
    and the one of the geonames database never, so every file that does not
    match the former stays, whatever the outcome. *)
Theorem cleanupMaxMindDatabases_same_name dataDir file fs :
  forall p, p ∈ fs_files fs -> Match (GoPath.Join [dataDir; mmdbPattern]) p = false ->
    p ∈ fs_files (cleanupMaxMindDatabases dataDir file file fs).2.
Proof.
  intros p Hp Hm. unfold cleanupMaxMindDatabases. simpl.
  rewrite cleanup_case_mmdb.
  destruct (cleanupOldDatabases_frame (GoPath.Join [dataDir; mmdbPattern]) file fs)
    as (_ & _ & Hkeep).
  destruct (cleanupOldDatabases (GoPath.Join [dataDir; mmdbPattern]) file fs)
    as [[e|] fs1] eqn:Hfirst; simpl in *; [auto|].
  rewrite cleanup_case_mmdb.
  destruct (cleanupOldDatabases_frame (GoPath.Join [dataDir; mmdbPattern]) file fs1)
    as (_ & _ & Hkeep1).
  destruct (cleanupOldDatabases (GoPath.Join [dataDir; mmdbPattern]) file fs1)
    as [[e|] fs2] eqn:Hsecond; simpl in *; auto.
Qed.

End TwoDatabases.


Lemma cleanupMaxMindDatabases_leaves_current_witness :
  let ext := example_external ("", None) in
  let fs' := {| fs_files := [ "/data/GeoLite2-City-maxmind_20230301.mmdb";
                              "/data/GeoLite2-City-geonames_20230301.db";
                              "/data/notes.txt" ];
                fs_denied := [] |} in
  @cleanupMaxMindDatabases ext "/data" "GeoLite2-City-maxmind_20230301.mmdb"
    "GeoLite2-City-geonames_20230301.db" startup_fs = (None, fs') /\
  (forall p, p ∈ fs_files fs' -> p ∈ fs_files startup_fs) /\
  (forall p, p ∈ fs_files fs' -> @Match ext (GoPath.Join ["/data"; mmdbPattern]) p ->
     GoStrings.Base p = "GeoLite2-City-maxmind_20230301.mmdb") /\
  (forall p, p ∈ fs_files fs' -> @Match ext (GoPath.Join ["/data"; geonamesdbPattern]) p ->
     GoStrings.Base p = "GeoLite2-City-geonames_20230301.db").
Proof.
  intros ext fs'.
  assert (Hrun : @cleanupMaxMindDatabases ext "/data" "GeoLite2-City-maxmind_20230301.mmdb"
                   "GeoLite2-City-geonames_20230301.db" startup_fs = (None, fs')).
  { vm_compute. reflexivity. }
  split; [exact Hrun|].
  exact (@cleanupMaxMindDatabases_leaves_current ext "/data"
           "GeoLite2-City-maxmind_20230301.mmdb" "GeoLite2-City-geonames_20230301.db"
           startup_fs fs' ltac:(discriminate) Hrun).
Defined.

Lemma cleanupMaxMindDatabases_first_error_witness :
  let ext := example_external ("", None) in
  let e := "remove /data/GeoLite2-City-maxmind_20230201.mmdb: operation not permitted" in
  let fs1 := without [ "/data/GeoLite2-City-maxmind_20230101.mmdb" ] guarded_fs in
  @cleanupMaxMindDatabases ext "/data" "GeoLite2-City-maxmind_20230301.mmdb" "geonames.db"
    guarded_fs = (Some e, fs1) /\
  forall p, p ∈ fs_files guarded_fs ->
    @Match ext (GoPath.Join ["/data"; mmdbPattern]) p = false -> p ∈ fs_files fs1.
Proof.
  intros ext e fs1.
  apply (@cleanupMaxMindDatabases_first_error ext "/data"
           "GeoLite2-City-maxmind_20230301.mmdb" "geonames.db" guarded_fs e fs1).
  vm_compute. reflexivity.
Defined.

Lemma cleanupMaxMindDatabases_same_name_witness :
  let ext := example_external ("", None) in
  "/data/GeoLite2-City-geonames_20230201.db"
    ∈ fs_files (@cleanupMaxMindDatabases ext "/data" "GeoLite2-City-maxmind_20230301.mmdb"
                  "GeoLite2-City-maxmind_20230301.mmdb" startup_fs).2.
Proof.
  intros ext.
  apply (@cleanupMaxMindDatabases_same_name ext "/data"
           "GeoLite2-City-maxmind_20230301.mmdb" startup_fs).
  - simpl. apply list_elem_of_further, list_elem_of_here.
  - vm_compute. reflexivity.
Defined.

(** ** Opening, looking up and reloading *)

Ltac run_go :=
  unfold fileExists, reloader_tick, reload, Stop, Lookup, openDB, Close_reader,
    close_stopCh, deref, alloc, unrecorded, defer, emitted, emit, call, get_gl,
    set_gl, panic, bind, ret in *;
  simpl in *.

(** Case analysis on the next call whose answer decides the run. *)
Ltac next_call :=
  match goal with
  | |- context [match ?x with _ => _ end] =>
      lazymatch x with
      | context [match _ with _ => _ end] => fail
      | _ => destruct x eqn:?
      end
  end.

Section Handles.
Context {W : Type} `{Environment W}.

(** X10: [openDB] never panics and leaves the service value alone.  It
    either returns an error and no reader, the readers being as before, or
    no error and a pointer to a new, open reader of the path, placed after
    the readers that exist, which are untouched. *)
Theorem openDB_outcomes (path : string) (st : State W) :
  let st' := (openDB path st).2 in
  gl st' = gl st /\
  ((exists e, (openDB path st).1 = Returns (None, Some e) /\ heap st' = heap st) \/
   ((openDB path st).1 = Returns (Some (length (heap st)), None) /\
    heap st' = heap st ++ [ {| rd_path := path; rd_closed := false |} ])).
Proof.
  run_go. repeat (simpl; next_call); simpl; split; try done; eauto.
Qed.

(** X11: a path that [os.Stat] reports missing is answered with the
    message that it does not exist, without a call of [maxminddb.Open]. *)
Theorem openDB_missing_file (path : string) (st : State W) (e : error) :
  (os_Stat path (world st)).1 = Some e -> os_IsNotExist e = true ->
  openDB path st
  = (Returns (None, Some (path +:+ " does not exist")),
     {| gl := gl st; heap := heap st; world := (os_Stat path (world st)).2;
        trace := trace st ++ [EvStat path] |}).
Proof.
  intros Hstat Hmiss. run_go.
  destruct (os_Stat path (world st)) as [err w]. simpl in *. subst err.
  simpl. by rewrite Hmiss.
Qed.

(** X12: [fileExists] answers true with no error or false with an error,
    and [openDB] refuses a path with the very error [fileExists] gives for
    it, after the same single call of [os.Stat]. *)
Theorem fileExists_agrees_with_openDB (path : string) (st : State W) :
  ((fileExists path st).1 = Returns (true, None) \/
   exists e, (fileExists path st).1 = Returns (false, Some e)) /\
  (forall e, (fileExists path st).1 = Returns (false, Some e) ->
     openDB path st = (Returns (None, Some e), (fileExists path st).2)).
Proof.
  run_go. destruct (os_Stat path (world st)) as [[e|] w]; simpl.
  - destruct (os_IsNotExist e); simpl; (split; [eauto|]); by intros ? [= <-].
  - split; [by left|]. done.
Qed.

(** X13: on a service with a reader behind its reference, [Lookup] does
    not panic and reads only: it returns the record or the error of the
    reader, never both, and leaves the service, the readers and the world
    as they are, the read lock taken and released around the one call. *)
Theorem Lookup_reads_only (st : State W) (p : ptr) (r : Reader) (ip : IP) :
  db (gl st) = Some p -> heap st !! p = Some r ->
  let answer := Reader_Lookup r ip (world st) in
  Lookup ip st
  = (Returns (match answer.2 with
              | Some e => (None, Some e)
              | None => (Some answer.1, None)
              end),
     {| gl := gl st; heap := heap st; world := world st;
        trace := trace st ++ [EvRLock; EvReaderLookup p; EvRUnlock] |}).
Proof.
  intros Hp Hr. run_go. rewrite Hp. simpl. rewrite Hr. simpl.
  destruct (Reader_Lookup r ip (world st)) as [rec [e|]]; simpl;
    by rewrite <- !app_assoc.
Qed.

(** X14: [Lookup] always gives the read lock back: whether it returns or
    panics on a nil reference, its events are [RLock], then no lock
    operation, then [RUnlock]. *)
Theorem Lookup_always_unlocks (st : State W) (ip : IP) :
  exists mid,
    trace (Lookup ip st).2 = trace st ++ EvRLock :: mid ++ [EvRUnlock] /\
    lock_free mid.
Proof.
  unfold lock_free. run_go.
  repeat (simpl; next_call); simpl; rewrite <- ?app_assoc; simpl.
  all: first
    [ exists []; split; [reflexivity|]; by constructor
    | eexists [_]; split; [reflexivity|]; repeat constructor; done ].
Qed.

(** X15: [reload] always gives the writer lock back: whether it returns
    nil, returns an error or panics, its events are [Lock], then no lock
    operation, then [Unlock]. *)
Theorem reload_always_unlocks (st : State W) (newSha256sum : bytes) :
  exists mid,
    trace (reload newSha256sum st).2 = trace st ++ EvLock :: mid ++ [EvUnlock] /\
    lock_free mid.
Proof.
  unfold lock_free. run_go.
  repeat (simpl; next_call); simpl; rewrite <- ?app_assoc; simpl.
  all: first
    [ exists []; split; [reflexivity|]; by constructor
    | eexists [_]; split; [reflexivity|]; repeat constructor; done
    | eexists [_; _]; split; [reflexivity|]; repeat constructor; done
    | eexists [_; _; _]; split; [reflexivity|]; repeat constructor; done
    | eexists [_; _; _; _]; split; [reflexivity|]; repeat constructor; done ].
Qed.

(** X16: when closing the old reader and opening the file both succeed,
    [reload] returns nil; the reference then points to a new open reader
    of the same path, the old reader is released, the given fingerprint is
    the baseline, and nothing else of the service has changed. *)
Theorem reload_success (st : State W) (p : ptr) (r : Reader) (newSha256sum : bytes) :
  db (gl st) = Some p -> heap st !! p = Some r ->
  reopens (mmdbPath (gl st)) r (world st) = true ->
  let st' := (reload newSha256sum st).2 in
  (reload newSha256sum st).1 = Returns None /\
  gl st' = {| mmdbPath := mmdbPath (gl st); sha256sum := newSha256sum;
              db := Some (length (heap st)); locationDB := locationDB (gl st);
              stopCh := stopCh (gl st);
              reloadCheckInterval := reloadCheckInterval (gl st) |} /\
  heap st' = <[p := {| rd_path := rd_path r; rd_closed := true |}]> (heap st)
             ++ [ {| rd_path := mmdbPath (gl st); rd_closed := false |} ].
Proof.
  intros Hp Hr Hre. unfold reopens in Hre. run_go. rewrite Hp. simpl. rewrite Hr. simpl.
  destruct (Reader_Close r (world st)) as [[e|] w1]; simpl in *; [done|].
  destruct (os_Stat (mmdbPath (gl st)) w1) as [[e|] w2]; simpl in *; [done|].
  destruct (maxminddb_Open (mmdbPath (gl st)) w2) as [[e|] w3]; simpl in *; [done|].
  by rewrite length_insert.
Qed.

(** X17: when closing the old reader fails, [reload] returns that error
    at once: the file is neither examined nor opened, the service value is
    unchanged, and its reference is left on the reader just passed to
    [Close]. *)
Theorem reload_close_failure (st : State W) (p : ptr) (r : Reader)
    (newSha256sum : bytes) (e : error) :
  db (gl st) = Some p -> heap st !! p = Some r ->
  (Reader_Close r (world st)).1 = Some e ->
  reload newSha256sum st
  = (Returns (Some e),
     {| gl := gl st;
        heap := <[p := {| rd_path := rd_path r; rd_closed := true |}]> (heap st);
        world := (Reader_Close r (world st)).2;
        trace := trace st ++ [EvLock; EvClose p; EvUnlock] |}).
Proof.
  intros Hp Hr Hclose. run_go. rewrite Hp. simpl. rewrite Hr. simpl.
  destruct (Reader_Close r (world st)) as [c w1]. simpl in *. subst c. simpl.
  by rewrite <- !app_assoc.
Qed.

(** X18: when closing the reader fails, [Stop] returns that error at once
    and the geonames store is not closed: the stop channel is closed, the
    reader has been passed to [Close], and that is all. *)
Theorem Stop_close_error_skips_store (st : State W) (p : ptr) (r : Reader) (e : error) :
  stopCh (gl st) = ChanOpen ->
  db (gl st) = Some p -> heap st !! p = Some r ->
  (Reader_Close r (world st)).1 = Some e ->
  (Stop st).1 = Returns (Some e) /\
  trace (Stop st).2 = trace st ++ [EvCloseChan; EvClose p] /\
  world (Stop st).2 = (Reader_Close r (world st)).2.
Proof.
  intros Hopen Hp Hr Hclose. run_go. rewrite Hopen. simpl. rewrite Hp. simpl.
  rewrite Hr. simpl.
  destruct (Reader_Close r (world st)) as [c w1]. simpl in *. subst c. simpl.
  by rewrite <- !app_assoc.
Qed.

End Handles.

(** ** Invariants of the reloader *)

Section TickInvariants.
Context {W : Type} `{Environment W}.

(** What a tick can do to the service value and to the readers. *)
Lemma reloader_tick_cases (st : State W) :
  let st' := (reloader_tick st).2 in
  ((reloader_tick st).1 = Returns tt /\ gl st' = gl st /\ heap st' = heap st) \/
  (exists p r, db (gl st) = Some p /\ heap st !! p = Some r /\
     (reloader_tick st).1 = Returns tt /\
     ((gl st' = gl st /\ heap st' = <[p := released r]> (heap st)) \/
      (exists sum,
         gl st' = {| mmdbPath := mmdbPath (gl st); sha256sum := sum;
                     db := Some (length (heap st)); locationDB := locationDB (gl st);
                     stopCh := stopCh (gl st);
                     reloadCheckInterval := reloadCheckInterval (gl st) |} /\
         heap st' = <[p := released r]> (heap st)
                    ++ [ {| rd_path := mmdbPath (gl st); rd_closed := false |} ]))) \/
  ((reloader_tick st).1 = Panics nil_dereference /\ ~ serving st /\
   gl st' = gl st /\ heap st' = heap st).
Proof.
  unfold serving, released. run_go.
  destruct (SqliteStore_reload (world st)) as [e0 w1]; simpl.
  destruct (calculateFileSHA256 (mmdbPath (gl st)) w1) as [[sum1 [e1|]] w2]; simpl;
    [by left|].
  destruct (negb (bytes_Equal (sha256sum (gl st)) sum1)); simpl; [|by left].
  destruct (calculateFileSHA256 (mmdbPath (gl st)) (time_Sleep 50 w2))
    as [[sum2 [e2|]] w3]; simpl; [by left|].
  destruct (negb (bytes_Equal sum1 sum2)); simpl; [by left|].
  destruct (db (gl st)) as [p|] eqn:Hp; simpl; cycle 1.
  { right. right. repeat split; try done. by intros (? & ? & ? & ?). }
  destruct (heap st !! p) as [r|] eqn:Hr; simpl; cycle 1.
  { right. right. repeat split; try done. intros (p' & r' & Hp' & Hr').
    injection Hp' as <-. rewrite Hr in Hr'. discriminate Hr'. }
  right. left. exists p, r. split; [done|]. split; [done|].
  destruct (Reader_Close r w3) as [[e|] w4]; simpl; [by auto|].
  destruct (os_Stat (mmdbPath (gl st)) w4) as [[e|] w5]; simpl.
  { destruct (os_IsNotExist e); simpl; by auto. }
  destruct (maxminddb_Open (mmdbPath (gl st)) w5) as [[e|] w6]; simpl; [by auto|].
  split; [done|]. right. exists sum2. by rewrite length_insert.
Qed.

(** X19: on a service with a reader behind its reference a tick does not
    panic and keeps it so; the path, the store, the stop channel and the
    interval are never changed by a tick. *)
Theorem reloader_tick_keeps_service (st : State W) :
  serving st ->
  let st' := (reloader_tick st).2 in
  (reloader_tick st).1 = Returns tt /\ serving st' /\
  mmdbPath (gl st') = mmdbPath (gl st) /\
  locationDB (gl st') = locationDB (gl st) /\
  stopCh (gl st') = stopCh (gl st) /\
  reloadCheckInterval (gl st') = reloadCheckInterval (gl st).
Proof.
  intros Hs.
  destruct (reloader_tick_cases st)
    as [(Hret & Hgl & Hheap)
       |[(p & r & Hp & Hr & Hret & [[Hgl Hheap]|(sum & Hgl & Hheap)])
        |(_ & Hns & _)]]; [| | |done].
  - simpl. rewrite Hret, Hgl. repeat split; try done.
    destruct Hs as (p & r & ? & ?). exists p, r. by rewrite Hgl, Hheap.
  - simpl. rewrite Hret, Hgl. repeat split; try done.
    exists p, (released r). rewrite Hgl, Hheap. split; [done|].
    apply list_lookup_insert_eq. by eapply lookup_lt_Some.
  - simpl. rewrite Hret, Hgl. simpl. repeat split; try done.
    eexists (length (heap st)), _. rewrite Hgl, Hheap. simpl. split; [done|].
    rewrite lookup_app_r by (rewrite length_insert; lia).
    by rewrite length_insert, Nat.sub_diag.
Qed.

(** X20: the baseline and the reference change together: a tick that
    changes the recorded fingerprint has replaced the handle. *)
Theorem reloader_tick_baseline_with_handle (st : State W) :
  sha256sum (gl (reloader_tick st).2) ≠ sha256sum (gl st) ->
  replaced st (reloader_tick st).2.
Proof.
  unfold replaced. intros Hsum.
  destruct (reloader_tick_cases st)
    as [(Hret & Hgl & Hheap)
       |[(p & r & Hp & Hr & Hret & [[Hgl Hheap]|(sum & Hgl & Hheap)])
        |(_ & _ & Hgl & _)]]; simpl in *; try (by rewrite Hgl in Hsum).
  rewrite Hgl, Hp. simpl. intros [= Heq].
  apply lookup_lt_Some in Hr. lia.
Qed.

(** X21: a tick never moves, reopens or forgets a reader: each reader
    keeps its place and its path, a released one stays released, and at most
    one reader is added. *)
Theorem reloader_tick_readers (st : State W) (q : ptr) (r : Reader) :
  heap st !! q = Some r ->
  let st' := (reloader_tick st).2 in
  (exists r', heap st' !! q = Some r' /\ rd_path r' = rd_path r /\
     (rd_closed r = true -> rd_closed r' = true)) /\
  length (heap st) <= length (heap st') <= S (length (heap st)).
Proof.
  intros Hq.
  assert (Hins : forall (p : ptr) r0, heap st !! p = Some r0 ->
            exists r', <[p := released r0]> (heap st) !! q = Some r' /\
              rd_path r' = rd_path r /\ (rd_closed r = true -> rd_closed r' = true)).
  { intros p r0 Hp. destruct (decide (p = q)) as [->|Hne].
    - exists (released r0). rewrite list_lookup_insert_eq by by eapply lookup_lt_Some.
      rewrite Hq in Hp. injection Hp as <-. done.
    - exists r. by rewrite list_lookup_insert_ne. }
  destruct (reloader_tick_cases st)
    as [(Hret & Hgl & Hheap)
       |[(p & r0 & Hp & Hr & Hret & [[Hgl Hheap]|(sum & Hgl & Hheap)])
        |(_ & _ & _ & Hheap)]]; simpl; rewrite Hheap.
  - split; [eauto|lia].
  - split; [by apply Hins|]. rewrite length_insert. lia.
  - split.
    + destruct (Hins p r0 Hr) as (r' & Hr' & ?). exists r'. split; [|done].
      by apply lookup_app_l_Some.
    + rewrite length_app, length_insert. simpl. lia.
  - split; [eauto|lia].
Qed.

Lemma reloader_S (n : nat) (st : State W) :
  reloader (S n) st
  = match stopCh (gl st) with
    | ChanClosed => (Returns tt, st)
    | _ => bind reloader_tick (fun _ => reloader n) st
    end.
Proof. cbn [reloader]. unfold bind at 1, get_gl. by destruct (stopCh (gl st)). Qed.

(** The loop keeps a reader behind the reference, tick after tick. *)
Lemma reloader_serving (n : nat) (st : State W) :
  serving st ->
  (reloader n st).1 = Returns tt /\ serving (reloader n st).2.
Proof.
  revert st. induction n as [|n IH]; intros st Hs; [done|].
  rewrite reloader_S.
  assert (Htick : (reloader_tick st).1 = Returns tt /\ serving (reloader_tick st).2).
  { destruct (reloader_tick_cases st)
      as [(Hret & Hgl & Hheap)
         |[(p & r & Hp & Hr & Hret & [[Hgl Hheap]|(sum & Hgl & Hheap)])
          |(_ & Hns & _)]]; [| | |done]; (split; [done|]).
    - destruct Hs as (p & r & ? & ?). exists p, r. by rewrite Hgl, Hheap.
    - exists p, (released r). rewrite Hgl, Hheap. split; [done|].
      apply list_lookup_insert_eq. by eapply lookup_lt_Some.
    - eexists (length (heap st)), _. rewrite Hgl, Hheap. simpl. split; [done|].
      rewrite lookup_app_r by (rewrite length_insert; lia).
      by rewrite length_insert, Nat.sub_diag. }
  destruct Htick as [Hret Hs'].
  assert (Hstep : bind reloader_tick (fun _ => reloader n) st
                  = reloader n (reloader_tick st).2).
  { unfold bind. destruct (reloader_tick st) as [[[]|msg] st']; simpl in *; done. }
  destruct (stopCh (gl st)); try done; rewrite Hstep; by apply IH.
Qed.

(** X22: a lookup never panics on a service that had a reader behind its
    reference, however many ticks of the reloader have run since. *)
Theorem Lookup_after_ticks_returns (n : nat) (st : State W) (ip : IP) :
  serving st ->
  exists answer, (Lookup ip (reloader n st).2).1 = Returns answer.
Proof.
  intros Hs. destruct (reloader_serving n st Hs) as [_ (p & r & Hp & Hr)].
  run_go. rewrite Hp. simpl. rewrite Hr. simpl.
  destruct (Reader_Lookup r ip _) as [rec [e|]]; simpl; eauto.
Qed.

End TickInvariants.

(** ** The loop, the unchanged file and the stop *)

Section LoopMore.
Context {W : Type} `{Environment W}.



Lemma Stop_returns_closed (st st' : State W) (err : option error) :
  Stop st = (Returns err, st') -> stopCh (gl st') = ChanClosed.
Proof.
  run_go. destruct (stopCh (gl st)); simpl; try done.
  repeat (simpl; next_call); simpl; intros; by simplify_eq/=.
Qed.

(** X24: once [Stop] has returned, the loop of the reloader leaves at its
    next turn without a tick: the state is as [Stop] left it. *)
Theorem reloader_after_Stop_returns (n : nat) (st st' : State W) (err : option error) :
  Stop st = (Returns err, st') ->
  reloader n st' = (Returns tt, st').
Proof. intros Hstop. apply reloader_stopped. by eapply Stop_returns_closed. Qed.

End LoopMore.

(** ** The constructor *)

Section Constructor.
Context {W : Type} `{Environment W} `{Startup W} `{External}.

(** X25: [NewGeolocation] never panics, and it returns either a service
    and no error, or an error and no service. *)
Theorem NewGeolocation_service_or_error dataDir mmdbFile geonamesdbFile fs (st : State W) :
  (exists geo, (NewGeolocation dataDir mmdbFile geonamesdbFile fs st).1
               = Returns (Some geo, None)) \/
  (exists e, (NewGeolocation dataDir mmdbFile geonamesdbFile fs st).1
             = Returns (None, Some e)).
Proof.
  unfold NewGeolocation. run_go.
  repeat (simpl; next_call); simpl; simplify_eq/=; eauto.
Qed.

(** X26: a service returned by [NewGeolocation] is a running one: its
    reference points to a new open reader of the database file in the data
    directory, the stop channel is open, the interval is 300 seconds, and
    the old files of both databases were cleaned up without error. *)
Theorem NewGeolocation_running dataDir mmdbFile geonamesdbFile fs (st : State W)
    geo fs' st' :
  NewGeolocation dataDir mmdbFile geonamesdbFile fs st
    = (Returns (Some geo, None), (fs', st')) ->
  gl st' = geo /\ serving st' /\
  mmdbPath geo = GoPath.Join [dataDir; mmdbFile] /\
  db geo = Some (length (heap st)) /\
  heap st' = heap st ++ [ {| rd_path := GoPath.Join [dataDir; mmdbFile];
                             rd_closed := false |} ] /\
  stopCh geo = ChanOpen /\ reloadCheckInterval geo = 300 /\
  exists fs1 w1,
    loadGeolocationDatabases dataDir mmdbFile geonamesdbFile fs (world st)
      = (None, fs1, w1) /\
    cleanupMaxMindDatabases dataDir mmdbFile geonamesdbFile fs1 = (None, fs').
Proof.
  unfold NewGeolocation, serving. run_go.
  destruct (loadGeolocationDatabases dataDir mmdbFile geonamesdbFile fs (world st))
    as [[[e|] fs1] w1]; simpl; [done|].
  destruct (cleanupMaxMindDatabases dataDir mmdbFile geonamesdbFile fs1)
    as [[e|] fs2] eqn:Hclean; simpl; [done|].
  repeat (simpl; next_call); simpl; intros; simplify_eq/=.
  repeat split; eauto.
  eexists (length (heap st)), _. split; [done|].
  by rewrite lookup_app_r, Nat.sub_diag by lia.
Qed.

(** X27: [NewGeolocation] closes nothing: when the hash of the file fails
    after [openDB] has succeeded, the error is returned with no service, and
    the reader just opened is left open. *)
Theorem NewGeolocation_hash_failure_leaves_reader dataDir mmdbFile geonamesdbFile fs
    (st : State W) fs1 w1 fs2 e :
  let path := GoPath.Join [dataDir; mmdbFile] in
  loadGeolocationDatabases dataDir mmdbFile geonamesdbFile fs (world st) = (None, fs1, w1) ->
  cleanupMaxMindDatabases dataDir mmdbFile geonamesdbFile fs1 = (None, fs2) ->
  (os_Stat path w1).1 = None ->
  (maxminddb_Open path (os_Stat path w1).2).1 = None ->
  (calculateFileSHA256 path (maxminddb_Open path (os_Stat path w1).2).2).1.2 = Some e ->
  let result := NewGeolocation dataDir mmdbFile geonamesdbFile fs st in
  result.1 = Returns (None, Some e) /\
  heap result.2.2 = heap st ++ [ {| rd_path := path; rd_closed := false |} ] /\
  trace result.2.2 = trace st ++ [EvStat path; EvOpen path; EvSHA256 path].
Proof.
  intros path Hload Hclean Hstat Hopen Hsum. subst path.
  unfold NewGeolocation. run_go. rewrite Hload, Hclean. simpl.
  destruct (os_Stat (GoPath.Join [dataDir; mmdbFile]) w1) as [s w2]; simpl in *. subst s.
  simpl.
  destruct (maxminddb_Open (GoPath.Join [dataDir; mmdbFile]) w2) as [o w3]; simpl in *.
  subst o. simpl.
  destruct (calculateFileSHA256 (GoPath.Join [dataDir; mmdbFile]) w3) as [[sum c] w4];
    simpl in *. subst c. simpl.
  by rewrite <- !app_assoc.
Qed.

End Constructor.

(** ** The properties above on the scripted world *)

Lemma openDB_missing_file_witness :
  let env := scripted (Some "no such file or directory") None None in
  @openDB _ env mmdb_20240101 (running [])
  = (Returns (None, Some (mmdb_20240101 +:+ " does not exist")),
     {| gl := gl (running []); heap := heap (running []); world := [];
        trace := [EvStat mmdb_20240101] |}).
Proof.
  intros env.
  exact (@openDB_missing_file _ env mmdb_20240101 (running [])
           "no such file or directory" eq_refl eq_refl).
Defined.

Lemma fileExists_agrees_with_openDB_witness :
  let env := scripted (Some "permission denied") None None in
  @openDB _ env mmdb_20240101 (running [])
  = (Returns (None, Some "permission denied"),
     (@fileExists _ env mmdb_20240101 (running [])).2).
Proof.
  intros env.
  exact (proj2 (@fileExists_agrees_with_openDB _ env mmdb_20240101 (running []))
           "permission denied" eq_refl).
Defined.

Lemma Lookup_reads_only_witness :
  let env := scripted None None None in
  @Lookup _ env [] (running [])
  = (Returns (Some berlin, None),
     {| gl := gl (running []); heap := heap (running []); world := [];
        trace := [EvRLock; EvReaderLookup 0; EvRUnlock] |}).
Proof.
  intros env.
  exact (@Lookup_reads_only _ env (running []) 0
           {| rd_path := mmdb_20240101; rd_closed := false |} [] eq_refl eq_refl).
Defined.

Lemma reload_success_witness :
  let env := scripted None None None in
  let st' := (@reload _ env sum_new (running [])).2 in
  (@reload _ env sum_new (running [])).1 = Returns None /\
  gl st' = {| mmdbPath := mmdb_20240101; sha256sum := sum_new; db := Some 1;
              locationDB := Some 0; stopCh := ChanOpen; reloadCheckInterval := 300 |} /\
  heap st' = [ {| rd_path := mmdb_20240101; rd_closed := true |};
               {| rd_path := mmdb_20240101; rd_closed := false |} ].
Proof.
  intros env.
  exact (@reload_success _ env (running []) 0
           {| rd_path := mmdb_20240101; rd_closed := false |} sum_new
           eq_refl eq_refl eq_refl).
Defined.

Lemma reload_close_failure_witness :
  let env := scripted None None (Some "munmap: invalid argument") in
  @reload _ env sum_new (running [])
  = (Returns (Some "munmap: invalid argument"),
     {| gl := gl (running []);
        heap := [ {| rd_path := mmdb_20240101; rd_closed := true |} ];
        world := [];
        trace := [EvLock; EvClose 0; EvUnlock] |}).
Proof.
  intros env.
  exact (@reload_close_failure _ env (running []) 0
           {| rd_path := mmdb_20240101; rd_closed := false |} sum_new
           "munmap: invalid argument" eq_refl eq_refl eq_refl).
Defined.

Lemma Stop_close_error_skips_store_witness :
  let env := scripted None None (Some "munmap: invalid argument") in
  (@Stop _ env (running [])).1 = Returns (Some "munmap: invalid argument") /\
  trace (@Stop _ env (running [])).2 = [EvCloseChan; EvClose 0] /\
  world (@Stop _ env (running [])).2 = [].
Proof.
  intros env.
  exact (@Stop_close_error_skips_store _ env (running []) 0
           {| rd_path := mmdb_20240101; rd_closed := false |}
           "munmap: invalid argument" eq_refl eq_refl eq_refl eq_refl).
Defined.

Lemma running_serving w : serving (running w).
Proof. exists 0, {| rd_path := mmdb_20240101; rd_closed := false |}. by split. Defined.

Lemma reloader_tick_keeps_service_witness :
  let env := scripted None (Some "invalid MaxMind DB file") None in
  let st := running [(sum_new, None); (sum_new, None)] in
  (@reloader_tick _ env st).1 = Returns tt /\ serving (@reloader_tick _ env st).2 /\
  mmdbPath (gl (@reloader_tick _ env st).2) = mmdb_20240101 /\
  locationDB (gl (@reloader_tick _ env st).2) = Some 0 /\
  stopCh (gl (@reloader_tick _ env st).2) = ChanOpen /\
  reloadCheckInterval (gl (@reloader_tick _ env st).2) = 300.
Proof.
  intros env st.
  exact (@reloader_tick_keeps_service _ env st (running_serving _)).
Defined.

Lemma reloader_tick_baseline_with_handle_witness :
  let env := scripted None None None in
  let st := running [(sum_new, None); (sum_new, None)] in
  replaced st (@reloader_tick _ env st).2.
Proof.
  intros env st.
  apply (@reloader_tick_baseline_with_handle _ env st). discriminate.
Defined.

Lemma reloader_tick_readers_witness :
  let env := scripted None None None in
  let st := running [(sum_new, None); (sum_new, None)] in
  (exists r', heap (@reloader_tick _ env st).2 !! 0 = Some r' /\
     rd_path r' = mmdb_20240101 /\ (false = true -> rd_closed r' = true)) /\
  1 <= length (heap (@reloader_tick _ env st).2) <= 2.
Proof.
  intros env st.
  exact (@reloader_tick_readers _ env st 0
           {| rd_path := mmdb_20240101; rd_closed := false |} eq_refl).
Defined.

Lemma Lookup_after_ticks_returns_witness :
  let env := scripted None (Some "invalid MaxMind DB file") None in
  let st := running [(sum_new, None); (sum_new, None)] in
  exists answer, (@Lookup _ env [] (@reloader _ env 3 st).2).1 = Returns answer.
Proof.
  intros env st.
  exact (@Lookup_after_ticks_returns _ env 3 st [] (running_serving _)).
Defined.


Lemma reloader_after_Stop_returns_witness :
  let env := scripted None None None in
  let st' := (@Stop _ env (running [(sum_new, None); (sum_new, None)])).2 in
  @reloader _ env 3 st' = (Returns tt, st').
Proof.
  intros env st'.
  exact (@reloader_after_Stop_returns _ env 3
           (running [(sum_new, None); (sum_new, None)]) st' None eq_refl).
Defined.

Lemma NewGeolocation_running_witness :
  let env := scripted None None None in
  let ext := example_external ("", None) in
  let res := @NewGeolocation _ env example_startup ext "/data"
               "GeoLite2-City-maxmind_20230301.mmdb" "GeoLite2-City-geonames_20230301.db"
               startup_fs (boot [(sum_old, None)]) in
  res.1 = Returns (Some (gl res.2.2), None) /\
  serving res.2.2 /\
  mmdbPath (gl res.2.2) = "/data/GeoLite2-City-maxmind_20230301.mmdb" /\
  db (gl res.2.2) = Some 0 /\
  stopCh (gl res.2.2) = ChanOpen /\
  fs_files res.2.1 = [ "/data/GeoLite2-City-maxmind_20230301.mmdb";
                       "/data/GeoLite2-City-geonames_20230301.db";
                       "/data/notes.txt" ].
Proof.
  intros env ext res.
  assert (Hres : res = (Returns (Some (gl res.2.2), None), (res.2.1, res.2.2))).
  { vm_compute. reflexivity. }
  destruct (@NewGeolocation_running _ env example_startup ext "/data"
              "GeoLite2-City-maxmind_20230301.mmdb" "GeoLite2-City-geonames_20230301.db"
              startup_fs (boot [(sum_old, None)]) _ _ _ Hres)
    as (_ & Hserving & Hpath & Hdb & _ & Hch & _ & _).
  split; [by rewrite Hres at 1|]. split; [exact Hserving|].
  split; [exact Hpath|]. split; [exact Hdb|]. split; [exact Hch|].
  vm_compute. reflexivity.
Defined.

Lemma NewGeolocation_hash_failure_leaves_reader_witness :
  let env := scripted None None None in
  let ext := example_external ("", None) in
  let path := "/data/GeoLite2-City-maxmind_20230301.mmdb" in
  let res := @NewGeolocation _ env example_startup ext "/data"
               "GeoLite2-City-maxmind_20230301.mmdb" "GeoLite2-City-geonames_20230301.db"
               startup_fs (boot []) in
  res.1 = Returns (None, Some "unexpected EOF") /\
  heap res.2.2 = [ {| rd_path := path; rd_closed := false |} ] /\
  trace res.2.2 = [EvStat path; EvOpen path; EvSHA256 path].
Proof.
  intros env ext path res.
  refine (@NewGeolocation_hash_failure_leaves_reader _ env example_startup ext "/data"
            "GeoLite2-City-maxmind_20230301.mmdb" "GeoLite2-City-geonames_20230301.db"
            startup_fs (boot []) startup_fs []
            {| fs_files := [ "/data/GeoLite2-City-maxmind_20230301.mmdb";
                             "/data/GeoLite2-City-geonames_20230301.db";
                             "/data/notes.txt" ];
               fs_denied := [] |}
            "unexpected EOF" eq_refl _ eq_refl eq_refl eq_refl).
  vm_compute. reflexivity.
Defined.

(** ** The signal server *)

Section GrpcHandler.

Lemma prefix_app_iff (p s : string) :
  String.prefix p s = true <-> exists rest, s = p +:+ rest.
Proof.
  revert s. induction p as [|c p IH]; intros s.
  - split; [|by destruct s]. intros _. by exists s.
  - destruct s as [|d s]; simpl.
    + split; [done|]. intros [rest Hrest]. rewrite app_String in Hrest. done.
    + destruct (ascii_dec c d) as [->|Hne].
      * rewrite IH. split; intros [rest Hrest]; exists rest.
        -- by rewrite app_String, Hrest.
        -- rewrite app_String in Hrest. by injection Hrest.
      * split; [done|]. intros [rest Hrest]. rewrite app_String in Hrest.
        injection Hrest as Hcd _. congruence.
Qed.

(** X28: the handler passes a request to the gRPC server exactly when it
    is an HTTP/2 request whose Content-Type starts with [application/grpc];
    the second test, on [application/grpc+proto], never decides. *)
Theorem grpcHandlerFunc_passes_iff (ProtoMajor : Z) (contentType : string) :
  Signal.grpcHandlerFunc ProtoMajor contentType = true <->
  ProtoMajor = 2%Z /\ exists rest, contentType = "application/grpc" +:+ rest.
Proof.
  unfold Signal.grpcHandlerFunc, Signal.HasPrefix.
  rewrite andb_true_iff, orb_true_iff, bool_decide_eq_true, !prefix_app_iff.
  split; intros [Hp Hh]; (split; [done|]).
  - destruct Hh as [Hh|[rest ->]]; [done|].
    exists ("+proto" +:+ rest). reflexivity.
  - by left.
Qed.

End GrpcHandler.

Lemma grpcHandlerFunc_passes_iff_witness :
  Signal.grpcHandlerFunc 2 "application/grpc+proto" = true /\
  Signal.grpcHandlerFunc 1 "application/grpc" = false /\
  Signal.grpcHandlerFunc 2 "application/json" = false.
Proof.
  split; [|split; reflexivity].
  apply (proj2 (grpcHandlerFunc_passes_iff 2 "application/grpc+proto")).
  split; [reflexivity|]. exists "+proto". reflexivity.
Defined.
